(** * TinyG2 probing cycle (G38.2) and planner buffer pool

    A shallow embedding of [TinyG2/cycle_probing.cpp] and of the pool
    constants of [TinyG2/planner.h].

    The probing cycle is a cooperative state machine: the controller polls
    [cm_probing_cycle_callback] on every pass of its main loop, and each
    call runs at most the one state function bound in [pb.func].  The
    functions mutate two process-wide singletons ([pb], private to the
    file, and [cm], the canonical machine) and call into the gpio, spindle,
    planner and reporting modules.

    The embedding passes the two singletons explicitly through a small
    state monad and records the calls that act on a collaborating module,
    and the reads of input pins, in a chronological trace.  What the cycle
    reads from the outside on one poll (runtime busy, input pins, machine
    position, encoder snapshot) is gathered in an [env] record, one per
    callback invocation. *)

From Stdlib Require Import ZArith QArith Qabs Qround List Bool String Ascii Lia.
Import ListNotations.

Open Scope Z_scope.

(** ** Numbers and arrays *)

(** The C [float]s of the source are only stored, copied and compared in
    this file; they are modelled as rationals.  The arithmetic on them
    lives in helpers of other modules, which are parameters below. *)
Definition float : Type := Q.
Bind Scope Q_scope with float.

Definition Qltb (x y : Q) : bool := negb (Qle_bool y x).

(** A C array of [AXES] (or [MOTORS]) elements: a map from index to value.
    Only indices inside the array are ever read or written. *)
Definition array (A : Type) : Type := nat -> A.

Definition aset {A : Type} (v : array A) (i : nat) (x : A) : array A :=
  fun j => if Nat.eqb j i then x else v j.

(** Axis numbering of the canonical machine: X Y Z A B C. *)
Definition AXIS_X : nat := 0.
Definition AXIS_Y : nat := 1.
Definition AXIS_Z : nat := 2.
Definition AXIS_A : nat := 3.
Definition AXIS_B : nat := 4.
Definition AXIS_C : nat := 5.
Definition AXES : nat := 6.

(** ** Status codes and enumerations *)

Inductive stat_t : Type :=
| STAT_OK
| STAT_EAGAIN
| STAT_NOOP
| STAT_GCODE_FEEDRATE_NOT_SPECIFIED
| STAT_GCODE_AXIS_IS_MISSING
| STAT_PROBE_CYCLE_FAILED.

(** [cm.probe_state]; the report prints it as an integer, 1 for success
    and 0 for failure. *)
Inductive cmProbeState : Type :=
| PROBE_FAILED
| PROBE_SUCCEEDED
| PROBE_WAITING.

Definition probe_state_int (p : cmProbeState) : Z :=
  match p with
  | PROBE_FAILED => 0
  | PROBE_SUCCEEDED => 1
  | PROBE_WAITING => 2
  end.

Definition probe_state_eqb (p q : cmProbeState) : bool :=
  probe_state_int p =? probe_state_int q.

(** [cm.machine_state] and [cm.cycle_state]: the cycle writes
    [MACHINE_CYCLE] and [CYCLE_PROBE] and tests for [CYCLE_PROBE]. *)
Inductive cmMachineState : Type :=
| MACHINE_INITIALIZING
| MACHINE_READY
| MACHINE_ALARM
| MACHINE_PROGRAM_STOP
| MACHINE_PROGRAM_END
| MACHINE_CYCLE.

Inductive cmCycleState : Type :=
| CYCLE_OFF
| CYCLE_MACHINING
| CYCLE_PROBE
| CYCLE_HOMING
| CYCLE_JOG.

Definition cycle_is_probe (c : cmCycleState) : bool :=
  match c with CYCLE_PROBE => true | _ => false end.

(** Distance mode and coordinate system are kept as the [uint8_t] codes
    the singleton saves. *)
Definition ABSOLUTE_MODE : Z := 0.
Definition ABSOLUTE_COORDS : Z := 0.

(** Values of [gpio_read_input]: [INPUT_INACTIVE] means the switch is open
    and reads as false; C's [true] is 1. *)
Definition INPUT_INACTIVE : Z := 0.
Definition C_true : Z := 1.

Definition MINIMUM_PROBE_TRAVEL : Q := 254 # 1000.

(** ** planner.h: the buffer pool constants *)

Definition PLANNER_BUFFER_POOL_SIZE : Z := 28.
Definition PLANNER_BUFFER_HEADROOM : Z := 4.

(** "Suggest 12 min. Limit is 255": the pool counts its free buffers in a
    [uint8_t]. *)
Definition PLANNER_BUFFER_POOL_SUGGESTED_MIN : Z := 12.
Definition UINT8_MAX : Z := 255.

(** The dimension of the storage array [bf] of [mpBufferPool_t], and the
    largest count its [uint8_t buffers_available] can hold. *)
Definition mpBufferPool_bf_slots : Z := PLANNER_BUFFER_POOL_SIZE.

(** ** The probing singleton and the canonical machine *)

(** The state functions [pb.func] can be bound to. *)
Inductive pb_state_function : Type :=
| F_probing_init
| F_probing_start
| F_probing_backoff
| F_probing_finish
| F_probing_finalize_exit.

Record pbProbingSingleton : Type := {
  func : option pb_state_function;   (* [None] is the null pointer *)
  probe_input : Z;
  saved_distance_mode : Z;
  saved_coord_system : Z;
  saved_jerk : array float;
  target : array float;
  flags : array bool
}.

(** [cm.a[axis]]: the two jerk settings of an axis the cycle uses. *)
Record cfgAxis : Type := {
  jerk_max : float;
  jerk_high : float
}.

(** The fields of the canonical machine singleton the cycle reads or
    writes. *)
Record cmSingleton : Type := {
  gm_feed_rate : float;
  gm_coord_system : Z;
  gm_distance_mode : Z;
  probe_state : cmProbeState;
  machine_state : cmMachineState;
  cycle_state : cmCycleState;
  probe_results : array float;
  a : array cfgAxis
}.

(** Calls into collaborating modules, in the order they are made. *)
Inductive event : Type :=
| gpio_read_input_ev (input : Z) (value : Z)
| gpio_set_probing_mode_ev (input : Z) (on : bool)
| cm_set_distance_mode_ev (mode : Z)
| cm_set_coord_system_ev (coord_system : Z)
| cm_set_axis_jerk_ev (axis : nat) (jerk : float)
| cm_spindle_optional_pause_ev (pause : bool)
| cm_spindle_resume_ev (dwell_seconds : float)
| cm_straight_feed_ev (tgt : array float) (flg : array bool)
| cm_queue_flush_ev
| cm_set_motion_mode_cancel_ev
| cm_canned_cycle_end_ev
| nv_reset_nv_list_ev
| nv_add_conditional_message_ev (msg : string)
| nv_print_list_ev (status : stat_t)
| printf_prb_e_ev (e : Z)
| printf_prb_axis_ev (letter : ascii) (value : float)
| printf_prb_close_ev.

Record machine : Type := {
  pb : pbProbingSingleton;
  cm : cmSingleton;
  trace : list event
}.

(** What one poll of the callback observes from outside the cycle. *)
Record env : Type := {
  cm_get_runtime_busy : bool;
  gpio_input : Z -> Z;
  cm_get_absolute_position : nat -> float;
  en_get_encoder_snapshot_vector : array float;
  spindle_dwell_seconds : float
}.

(** Pure helpers defined in other modules (util.h, kinematics, canonical
    machine).  The development is parametric in them. *)
Record helpers : Type := {
  fp_ZERO : float -> bool;
  fp_TRUE : bool -> bool;
  get_axis_vector_length : array float -> array float -> float;
  kn_forward_kinematics : array float -> array float;
  cm_get_axis_char : Z -> ascii
}.

(** ** Field updates *)

Definition set_func (f : option pb_state_function) (p : pbProbingSingleton) :=
  {| func := f; probe_input := probe_input p;
     saved_distance_mode := saved_distance_mode p;
     saved_coord_system := saved_coord_system p;
     saved_jerk := saved_jerk p; target := target p; flags := flags p |}.

Definition set_probe_input (n : Z) (p : pbProbingSingleton) :=
  {| func := func p; probe_input := n;
     saved_distance_mode := saved_distance_mode p;
     saved_coord_system := saved_coord_system p;
     saved_jerk := saved_jerk p; target := target p; flags := flags p |}.

Definition set_saved_distance_mode (m : Z) (p : pbProbingSingleton) :=
  {| func := func p; probe_input := probe_input p;
     saved_distance_mode := m;
     saved_coord_system := saved_coord_system p;
     saved_jerk := saved_jerk p; target := target p; flags := flags p |}.

Definition set_saved_coord_system (c : Z) (p : pbProbingSingleton) :=
  {| func := func p; probe_input := probe_input p;
     saved_distance_mode := saved_distance_mode p;
     saved_coord_system := c;
     saved_jerk := saved_jerk p; target := target p; flags := flags p |}.

Definition set_saved_jerk (j : array float) (p : pbProbingSingleton) :=
  {| func := func p; probe_input := probe_input p;
     saved_distance_mode := saved_distance_mode p;
     saved_coord_system := saved_coord_system p;
     saved_jerk := j; target := target p; flags := flags p |}.

Definition set_target (t : array float) (p : pbProbingSingleton) :=
  {| func := func p; probe_input := probe_input p;
     saved_distance_mode := saved_distance_mode p;
     saved_coord_system := saved_coord_system p;
     saved_jerk := saved_jerk p; target := t; flags := flags p |}.

Definition set_flags (f : array bool) (p : pbProbingSingleton) :=
  {| func := func p; probe_input := probe_input p;
     saved_distance_mode := saved_distance_mode p;
     saved_coord_system := saved_coord_system p;
     saved_jerk := saved_jerk p; target := target p; flags := f |}.

Definition set_jerk_max (j : float) (x : cfgAxis) :=
  {| jerk_max := j; jerk_high := jerk_high x |}.

Definition set_gm_coord_system (v : Z) (c : cmSingleton) :=
  {| gm_feed_rate := gm_feed_rate c; gm_coord_system := v;
     gm_distance_mode := gm_distance_mode c; probe_state := probe_state c;
     machine_state := machine_state c; cycle_state := cycle_state c;
     probe_results := probe_results c; a := a c |}.

Definition set_gm_distance_mode (v : Z) (c : cmSingleton) :=
  {| gm_feed_rate := gm_feed_rate c; gm_coord_system := gm_coord_system c;
     gm_distance_mode := v; probe_state := probe_state c;
     machine_state := machine_state c; cycle_state := cycle_state c;
     probe_results := probe_results c; a := a c |}.

Definition set_probe_state (v : cmProbeState) (c : cmSingleton) :=
  {| gm_feed_rate := gm_feed_rate c; gm_coord_system := gm_coord_system c;
     gm_distance_mode := gm_distance_mode c; probe_state := v;
     machine_state := machine_state c; cycle_state := cycle_state c;
     probe_results := probe_results c; a := a c |}.

Definition set_machine_state (v : cmMachineState) (c : cmSingleton) :=
  {| gm_feed_rate := gm_feed_rate c; gm_coord_system := gm_coord_system c;
     gm_distance_mode := gm_distance_mode c; probe_state := probe_state c;
     machine_state := v; cycle_state := cycle_state c;
     probe_results := probe_results c; a := a c |}.

Definition set_cycle_state (v : cmCycleState) (c : cmSingleton) :=
  {| gm_feed_rate := gm_feed_rate c; gm_coord_system := gm_coord_system c;
     gm_distance_mode := gm_distance_mode c; probe_state := probe_state c;
     machine_state := machine_state c; cycle_state := v;
     probe_results := probe_results c; a := a c |}.

Definition set_probe_results (v : array float) (c : cmSingleton) :=
  {| gm_feed_rate := gm_feed_rate c; gm_coord_system := gm_coord_system c;
     gm_distance_mode := gm_distance_mode c; probe_state := probe_state c;
     machine_state := machine_state c; cycle_state := cycle_state c;
     probe_results := v; a := a c |}.

Definition set_a (v : array cfgAxis) (c : cmSingleton) :=
  {| gm_feed_rate := gm_feed_rate c; gm_coord_system := gm_coord_system c;
     gm_distance_mode := gm_distance_mode c; probe_state := probe_state c;
     machine_state := machine_state c; cycle_state := cycle_state c;
     probe_results := probe_results c; a := v |}.

(** ** The state monad of the cycle *)

Definition M (A : Type) : Type := machine -> A * machine.

Definition ret {A : Type} (x : A) : M A := fun s => (x, s).

Definition bind {A B : Type} (m : M A) (k : A -> M B) : M B :=
  fun s => let (x, s') := m s in k x s'.

Declare Scope probing_scope.
Delimit Scope probing_scope with probing.
Notation "x <- m ;; k" := (bind m (fun x => k))
  (at level 61, m at next level, right associativity) : probing_scope.
Notation "m ;; k" := (bind m (fun _ => k))
  (at level 61, right associativity) : probing_scope.
Open Scope probing_scope.

Definition reads {A : Type} (f : machine -> A) : M A := fun s => (f s, s).

Definition modify_pb (f : pbProbingSingleton -> pbProbingSingleton) : M unit :=
  fun s => (tt, {| pb := f (pb s); cm := cm s; trace := trace s |}).

Definition modify_cm (f : cmSingleton -> cmSingleton) : M unit :=
  fun s => (tt, {| pb := pb s; cm := f (cm s); trace := trace s |}).

Definition emit (ev : event) : M unit :=
  fun s => (tt, {| pb := pb s; cm := cm s; trace := trace s ++ [ev] |}).

Definition when (b : bool) (m : M unit) : M unit := if b then m else ret tt.

(** [for (axis = lo; axis < hi; axis++) body(axis)] *)
Fixpoint for_each (axes : list nat) (body : nat -> M unit) : M unit :=
  match axes with
  | [] => ret tt
  | axis :: rest => body axis ;; for_each rest body
  end.

Definition for_axis (lo hi : nat) (body : nat -> M unit) : M unit :=
  for_each (seq lo (hi - lo)) body.

(** ** Collaborating modules *)

(** Modelled from the spec: canonical_machine.cpp is not among the sources.
    The cycle "snapshots coordinate system / distance mode / per-axis jerk"
    on entry and "restores" them on exit, so the getters read the values
    the setters write; the setters are also recorded in the trace. *)
Definition cm_get_coord_system : M Z := reads (fun s => gm_coord_system (cm s)).

Definition cm_get_distance_mode : M Z := reads (fun s => gm_distance_mode (cm s)).

Definition cm_set_distance_mode (mode : Z) : M unit :=
  modify_cm (set_gm_distance_mode mode) ;;
  emit (cm_set_distance_mode_ev mode).

Definition cm_set_coord_system (coord_system : Z) : M unit :=
  modify_cm (set_gm_coord_system coord_system) ;;
  emit (cm_set_coord_system_ev coord_system).

Definition cm_get_axis_jerk (axis : nat) : M float :=
  reads (fun s => jerk_max (a (cm s) axis)).

Definition cm_set_axis_jerk (axis : nat) (jerk : float) : M unit :=
  modify_cm (fun c => set_a (aset (a c) axis (set_jerk_max jerk (a c axis))) c) ;;
  emit (cm_set_axis_jerk_ev axis jerk).

(** Modelled from the spec: canonical_machine.cpp is not among the sources.
    Cleanup "cancels the active motion mode" and "ends the cycle", after
    which the callback is a no-op again: the cycle state goes back to off. *)
Definition cm_canned_cycle_end : M unit :=
  modify_cm (set_cycle_state CYCLE_OFF) ;;
  emit cm_canned_cycle_end_ev.

(** The remaining collaborators act on hardware and on the planner; the
    cycle only calls them. *)
Definition gpio_read_input (e : env) (input_num : Z) : M Z :=
  emit (gpio_read_input_ev input_num (gpio_input e input_num)) ;;
  ret (gpio_input e input_num).

Definition gpio_set_probing_mode (input_num : Z) (on : bool) : M unit :=
  emit (gpio_set_probing_mode_ev input_num on).

Definition cm_spindle_optional_pause (pause : bool) : M unit :=
  emit (cm_spindle_optional_pause_ev pause).

Definition cm_spindle_resume (dwell_seconds : float) : M unit :=
  emit (cm_spindle_resume_ev dwell_seconds).

Definition cm_straight_feed (tgt : array float) (flg : array bool) : M unit :=
  emit (cm_straight_feed_ev tgt flg).

Definition cm_queue_flush : M unit := emit cm_queue_flush_ev.

Definition cm_set_motion_mode_cancel : M unit := emit cm_set_motion_mode_cancel_ev.

Definition nv_reset_nv_list : M unit := emit nv_reset_nv_list_ev.

Definition nv_add_conditional_message (msg : string) : M unit :=
  emit (nv_add_conditional_message_ev msg).

Definition nv_print_list (status : stat_t) : M unit := emit (nv_print_list_ev status).

(** ** cycle_probing.cpp *)

Section Probing.

Variable X : helpers.

Definition _set_pb_func (f : pb_state_function) : M stat_t :=
  modify_pb (set_func (Some f)) ;;
  ret STAT_EAGAIN.

Definition cm_straight_probe (tgt : array float) (flg : array bool) : M stat_t :=
  feed_rate <- reads (fun s => gm_feed_rate (cm s)) ;;
  if fp_ZERO X feed_rate then
    ret STAT_GCODE_FEEDRATE_NOT_SPECIFIED
  else if negb (flg AXIS_X) && negb (flg AXIS_Y) && negb (flg AXIS_Z) then
    ret STAT_GCODE_AXIS_IS_MISSING
  else
    modify_pb (set_target tgt) ;;
    modify_pb (set_flags flg) ;;
    modify_cm (set_probe_results (fun _ => 0%Q)) ;;
    modify_cm (set_probe_state PROBE_WAITING) ;;
    modify_pb (set_func (Some F_probing_init)) ;;
    ret STAT_OK.

Definition _probe_restore_settings (e : env) : M unit :=
  cm_queue_flush ;;
  input <- reads (fun s => probe_input (pb s)) ;;
  gpio_set_probing_mode input false ;;
  for_axis 0 AXES (fun axis =>
    jerk <- reads (fun s => saved_jerk (pb s) axis) ;;
    modify_cm (fun c => set_a (aset (a c) axis (set_jerk_max jerk (a c axis))) c)) ;;
  coord_system <- reads (fun s => saved_coord_system (pb s)) ;;
  cm_set_coord_system coord_system ;;
  distance_mode <- reads (fun s => saved_distance_mode (pb s)) ;;
  cm_set_distance_mode distance_mode ;;
  cm_spindle_resume (spindle_dwell_seconds e) ;;
  cm_set_motion_mode_cancel ;;
  cm_canned_cycle_end.

Definition _probing_finalize_exit (e : env) : M stat_t :=
  _probe_restore_settings e ;;
  ret STAT_OK.

Definition axis_error_message (c : ascii) : string :=
  ("Probing error - " ++ String c " axis cannot move during probing")%string.

Definition _probing_error_exit (e : env) (axis : Z) : M stat_t :=
  nv_reset_nv_list ;;
  (if axis =? -2 then
     nv_add_conditional_message "Probing error - invalid probe destination"
   else
     nv_add_conditional_message (axis_error_message (cm_get_axis_char X axis))) ;;
  nv_print_list STAT_PROBE_CYCLE_FAILED ;;
  _probe_restore_settings e ;;
  ret STAT_PROBE_CYCLE_FAILED.

(** The local [start_position] is filled, element by element, from
    [cm_get_absolute_position] in the same loop that swaps the jerk
    values.  The two calls of [_probing_error_exit] are statements: the
    status they return is not used and control goes on to the next
    statement. *)
Definition _probing_init (e : env) : M stat_t :=
  modify_cm (set_probe_state PROBE_FAILED) ;;
  modify_cm (set_machine_state MACHINE_CYCLE) ;;
  modify_cm (set_cycle_state CYCLE_PROBE) ;;
  coord_system <- cm_get_coord_system ;;
  modify_pb (set_saved_coord_system coord_system) ;;
  distance_mode <- cm_get_distance_mode ;;
  modify_pb (set_saved_distance_mode distance_mode) ;;
  cm_set_distance_mode ABSOLUTE_MODE ;;
  cm_set_coord_system ABSOLUTE_COORDS ;;
  for_axis 0 AXES (fun axis =>
    jerk <- cm_get_axis_jerk axis ;;
    modify_pb (fun p => set_saved_jerk (aset (saved_jerk p) axis jerk) p) ;;
    high <- reads (fun s => jerk_high (a (cm s) axis)) ;;
    cm_set_axis_jerk axis high) ;;
  let start_position := cm_get_absolute_position e in
  tgt <- reads (fun s => target (pb s)) ;;
  when (Qltb (get_axis_vector_length X start_position tgt) MINIMUM_PROBE_TRAVEL)
       (_probing_error_exit e (-2) ;; ret tt) ;;
  for_axis AXIS_A AXES (fun axis =>
    flag <- reads (fun s => flags (pb s) axis) ;;
    when (fp_TRUE X flag) (_probing_error_exit e (Z.of_nat axis) ;; ret tt)) ;;
  modify_pb (set_probe_input 5) ;;
  input <- reads (fun s => probe_input (pb s)) ;;
  gpio_set_probing_mode input true ;;
  cm_spindle_optional_pause true ;;
  _set_pb_func F_probing_start.

Definition _probing_start (e : env) : M stat_t :=
  input <- reads (fun s => probe_input (pb s)) ;;
  probe <- gpio_read_input e input ;;
  if probe =? INPUT_INACTIVE then
    tgt <- reads (fun s => target (pb s)) ;;
    flg <- reads (fun s => flags (pb s)) ;;
    cm_straight_feed tgt flg ;;
    _set_pb_func F_probing_backoff
  else
    modify_cm (set_probe_state PROBE_SUCCEEDED) ;;
    _set_pb_func F_probing_finish.

Definition _probing_backoff (e : env) : M stat_t :=
  input <- reads (fun s => probe_input (pb s)) ;;
  probe <- gpio_read_input e input ;;
  (if probe =? INPUT_INACTIVE then
     modify_cm (set_probe_state PROBE_FAILED)
   else
     modify_cm (set_probe_state PROBE_SUCCEEDED) ;;
     let contact_position :=
       kn_forward_kinematics X (en_get_encoder_snapshot_vector e) in
     cm_queue_flush ;;
     flg <- reads (fun s => flags (pb s)) ;;
     cm_straight_feed contact_position flg) ;;
  _set_pb_func F_probing_finish.

Definition printf_prb_axis (axis : nat) (letter : ascii) : M unit :=
  flag <- reads (fun s => flags (pb s) axis) ;;
  value <- reads (fun s => probe_results (cm s) axis) ;;
  when flag (emit (printf_prb_axis_ev letter value)).

Definition _probing_finish (e : env) : M stat_t :=
  input <- reads (fun s => probe_input (pb s)) ;;
  probe <- gpio_read_input e input ;;
  modify_cm (set_probe_state
               (if probe =? C_true then PROBE_SUCCEEDED else PROBE_FAILED)) ;;
  for_axis 0 AXES (fun axis =>
    modify_cm (fun c =>
      set_probe_results
        (aset (probe_results c) axis (cm_get_absolute_position e axis)) c)) ;;
  state <- reads (fun s => probe_state (cm s)) ;;
  emit (printf_prb_e_ev (probe_state_int state)) ;;
  printf_prb_axis AXIS_X "x" ;;
  printf_prb_axis AXIS_Y "y" ;;
  printf_prb_axis AXIS_Z "z" ;;
  printf_prb_axis AXIS_A "a" ;;
  printf_prb_axis AXIS_B "b" ;;
  printf_prb_axis AXIS_C "c" ;;
  emit printf_prb_close_ev ;;
  _set_pb_func F_probing_finalize_exit.

(** The state function a value of the dispatch vector stands for. *)
Definition state_function (f : pb_state_function) (e : env) : M stat_t :=
  match f with
  | F_probing_init => _probing_init e
  | F_probing_start => _probing_start e
  | F_probing_backoff => _probing_backoff e
  | F_probing_finish => _probing_finish e
  | F_probing_finalize_exit => _probing_finalize_exit e
  end.

(** [pb.func()]: the call through the dispatch vector.  Calling through
    the null pointer has no defined result. *)
Definition pb_func_call (e : env) (s : machine) : option (stat_t * machine) :=
  match func (pb s) with
  | None => None
  | Some f => Some (state_function f e s)
  end.

Definition cm_probing_cycle_callback (e : env) (s : machine)
  : option (stat_t * machine) :=
  if negb (cycle_is_probe (cycle_state (cm s)))
     && negb (probe_state_eqb (probe_state (cm s)) PROBE_WAITING)
  then Some (STAT_NOOP, s)
  else if cm_get_runtime_busy e then Some (STAT_EAGAIN, s)
  else pb_func_call e s.

(** The controller's main loop, as far as the cycle is concerned: one
    callback per pass, each with its own observations. *)
Fixpoint poll (es : list env) (s : machine) : option (list stat_t * machine) :=
  match es with
  | [] => Some ([], s)
  | e :: rest =>
      match cm_probing_cycle_callback e s with
      | None => None
      | Some (st, s') =>
          match poll rest s' with
          | None => None
          | Some (sts, s'') => Some (st :: sts, s'')
          end
      end
  end.

End Probing.

(** ** An executable instance

    To run the model on concrete inputs the helper parameters need values.
    This instance follows util.h's conventions: [fp_ZERO] is "magnitude
    below EPSILON", a boolean flag is true as it stands, the vector length
    is Euclidean over the six axes (square root truncated to a millionth),
    forward kinematics maps motor [i] to axis [i] one to one. *)

Definition EPSILON : Q := 1 # 100000.

Definition Qsqrt_micro (q : Q) : Q :=
  Z.sqrt (Qfloor (q * (1000000000000 # 1))) # 1000000.

Definition square (q : Q) : Q := (q * q)%Q.

Definition euclid_length (u v : array float) : float :=
  Qsqrt_micro
    (fold_right (fun axis acc => (square (u axis - v axis) + acc)%Q) 0%Q
                (seq 0 AXES)).

Definition axis_letter (axis : Z) : ascii :=
  match axis with
  | 0 => "X" | 1 => "Y" | 2 => "Z" | 3 => "A" | 4 => "B" | _ => "C"
  end%char.

Definition bench : helpers :=
  {| fp_ZERO := fun x => Qltb (Qabs x) EPSILON;
     fp_TRUE := fun b => b;
     get_axis_vector_length := euclid_length;
     kn_forward_kinematics := fun steps => steps;
     cm_get_axis_char := axis_letter |}.

Definition vec6 (x y z p q r : float) : array float :=
  fun axis =>
    match axis with
    | 0 => x | 1 => y | 2 => z | 3 => p | 4 => q | _ => r
    end%nat.

Definition flags6 (x y z p q r : bool) : array bool :=
  fun axis =>
    match axis with
    | 0 => x | 1 => y | 2 => z | 3 => p | 4 => q | _ => r
    end%nat.

(** The singletons at power-up ([pb] is zero-initialised static storage),
    with a machine in G54, absolute distance mode, jerk 50 / 200 on every
    axis, and the given feed rate. *)
Definition pb_reset : pbProbingSingleton :=
  {| func := None; probe_input := 0;
     saved_distance_mode := 0; saved_coord_system := 0;
     saved_jerk := fun _ => 0%Q; target := fun _ => 0%Q;
     flags := fun _ => false |}.

Definition cm_ready (feed_rate : float) : cmSingleton :=
  {| gm_feed_rate := feed_rate; gm_coord_system := 1; gm_distance_mode := 0;
     probe_state := PROBE_FAILED; machine_state := MACHINE_READY;
     cycle_state := CYCLE_OFF; probe_results := fun _ => 0%Q;
     a := fun _ => {| jerk_max := 50%Q; jerk_high := 200%Q |} |}.

Definition power_up (feed_rate : float) : machine :=
  {| pb := pb_reset; cm := cm_ready feed_rate; trace := [] |}.

(** An idle runtime at the given position, with the probe input (and every
    other input) reading [pin]. *)
Definition idle_at (position : array float) (pin : Z) : env :=
  {| cm_get_runtime_busy := false;
     gpio_input := fun _ => pin;
     cm_get_absolute_position := position;
     en_get_encoder_snapshot_vector := position;
     spindle_dwell_seconds := 0%Q |}.

Definition busy_at (position : array float) (pin : Z) : env :=
  {| cm_get_runtime_busy := true;
     gpio_input := fun _ => pin;
     cm_get_absolute_position := position;
     en_get_encoder_snapshot_vector := position;
     spindle_dwell_seconds := 0%Q |}.

(** ** Vocabulary of the statements *)

(** What [cm_straight_probe] leaves behind when it accepts. *)
Definition probe_pending (tgt : array float) (flg : array bool)
           (s s' : machine) : Prop :=
  target (pb s') = tgt /\
  flags (pb s') = flg /\
  func (pb s') = Some F_probing_init /\
  probe_state (cm s') = PROBE_WAITING /\
  (forall axis, probe_results (cm s') axis = 0%Q) /\
  trace s' = trace s.

Definition linear_axis_flagged (flg : array bool) : bool :=
  flg AXIS_X || flg AXIS_Y || flg AXIS_Z.

(** The calls [_probe_restore_settings] makes, with the saved values of
    the machine it starts from. *)
Definition cleanup_calls (e : env) (s : machine) : list event :=
  [ cm_queue_flush_ev;
    gpio_set_probing_mode_ev (probe_input (pb s)) false;
    cm_set_coord_system_ev (saved_coord_system (pb s));
    cm_set_distance_mode_ev (saved_distance_mode (pb s));
    cm_spindle_resume_ev (spindle_dwell_seconds e);
    cm_set_motion_mode_cancel_ev;
    cm_canned_cycle_end_ev ].

(** Cleanup from [s] ended in [s']: every axis has its saved jerk back,
    coordinate system and distance mode are the saved ones, and the last
    calls made are the cleanup calls (probe input disarmed, spindle
    resumed among them). *)
Definition settings_restored (e : env) (s s' : machine) : Prop :=
  (forall axis, (axis < AXES)%nat ->
     jerk_max (a (cm s') axis) = saved_jerk (pb s) axis) /\
  gm_coord_system (cm s') = saved_coord_system (pb s) /\
  gm_distance_mode (cm s') = saved_distance_mode (pb s) /\
  pb s' = pb s /\
  exists before, trace s' = trace s ++ before ++ cleanup_calls e s.

(** The diagnostic [_probing_error_exit] reports, and the calls it makes
    before cleanup. *)
Definition error_exit_message (X : helpers) (axis : Z) : string :=
  if axis =? -2 then "Probing error - invalid probe destination"%string
  else axis_error_message (cm_get_axis_char X axis).

Definition error_exit_report (X : helpers) (axis : Z) : list event :=
  [ nv_reset_nv_list_ev;
    nv_add_conditional_message_ev (error_exit_message X axis);
    nv_print_list_ev STAT_PROBE_CYCLE_FAILED ].

(** The read of the probe input a state function starts with. *)
Definition probe_read (e : env) (s : machine) : event :=
  gpio_read_input_ev (probe_input (pb s)) (gpio_input e (probe_input (pb s))).

(** The result [_probing_finish] decides on: the probe input compared
    against [true] when finish runs. *)
Definition finish_probe_state (e : env) (s : machine) : cmProbeState :=
  if gpio_input e (probe_input (pb s)) =? C_true
  then PROBE_SUCCEEDED else PROBE_FAILED.

(** The probe-result vector after the store loop of [_probing_finish]. *)
Definition position_stored (e : env) (old : array float) : array float :=
  fold_left (fun v axis => aset v axis (cm_get_absolute_position e axis))
            (seq 0 AXES) old.

(** The "prb" report: the result flag, one field per flagged axis, the
    closing braces. *)
Definition prb_field (flg : array bool) (res : array float)
           (axis : nat) (letter : ascii) : list event :=
  if flg axis then [printf_prb_axis_ev letter (res axis)] else [].

Definition prb_report (state : cmProbeState) (flg : array bool)
           (res : array float) : list event :=
  [printf_prb_e_ev (probe_state_int state)]
  ++ prb_field flg res AXIS_X "x" ++ prb_field flg res AXIS_Y "y"
  ++ prb_field flg res AXIS_Z "z" ++ prb_field flg res AXIS_A "a"
  ++ prb_field flg res AXIS_B "b" ++ prb_field flg res AXIS_C "c"
  ++ [printf_prb_close_ev].

Definition is_straight_feed (ev : event) : bool :=
  match ev with cm_straight_feed_ev _ _ => true | _ => false end.

(** The first check of [_probing_init]: the travel from the current
    position to the target is below [MINIMUM_PROBE_TRAVEL]. *)
Definition probe_travel_too_short (X : helpers) (e : env) (s : machine) : bool :=
  Qltb (get_axis_vector_length X (cm_get_absolute_position e) (target (pb s)))
       MINIMUM_PROBE_TRAVEL.

(** The calls [_probing_init] ends with. *)
Definition init_arming_calls : list event :=
  [ gpio_set_probing_mode_ev 5 true; cm_spindle_optional_pause_ev true ].

(** ** A small program logic for [M] *)

(** [hoare P m Q]: from any machine satisfying [P], running [m] yields a
    value and a machine related by [Q].  The computations are total, so
    this is total correctness. *)
Definition hoare {A : Type} (P : machine -> Prop) (m : M A)
           (Q : A -> machine -> Prop) : Prop :=
  forall s, P s -> Q (fst (m s)) (snd (m s)).

(** The trace has grown from [tr0] only by events satisfying [ok]. *)
Definition grown (ok : event -> Prop) (tr0 : list event) (s : machine) : Prop :=
  exists evs, trace s = tr0 ++ evs /\ Forall ok evs.

(** An invariant on the probing singleton together with a bound on what
    has been appended to the trace. *)
Definition inv (pbP : pbProbingSingleton -> Prop) (ok : event -> Prop)
           (tr0 : list event) (s : machine) : Prop :=
  pbP (pb s) /\ grown ok tr0 s.

(** A gpio call is on input 5; calls to other modules are not concerned. *)
Definition on_input_5 (ev : event) : Prop :=
  match ev with
  | gpio_read_input_ev input _ => input = 5
  | gpio_set_probing_mode_ev input _ => input = 5
  | _ => True
  end.

Definition any_event (ev : event) : Prop := True.

Definition probes_input_5 (p : pbProbingSingleton) : Prop := probe_input p = 5.

Definition any_pb (p : pbProbingSingleton) : Prop := True.

Definition is_gpio (ev : event) : bool :=
  match ev with
  | gpio_read_input_ev _ _ | gpio_set_probing_mode_ev _ _ => true
  | _ => false
  end.

(** The last statements of [_probing_init]: input 5 is made the probe
    input and armed, the spindle paused, [_probing_start] bound. *)
Definition probe_armed (s : machine) : machine :=
  {| pb := set_func (Some F_probing_start) (set_probe_input 5 (pb s));
     cm := cm s;
     trace := trace s ++ init_arming_calls |}.

(** What one call of the callback may amount to: nothing at all (the
    machine is returned as it was), or one call of the state function that
    was bound in [pb.func], which needs an idle runtime. *)
Inductive callback_outcome (X : helpers) (e : env) (s : machine)
  : option (stat_t * machine) -> Prop :=
| outcome_noop : callback_outcome X e s (Some (STAT_NOOP, s))
| outcome_wait : callback_outcome X e s (Some (STAT_EAGAIN, s))
| outcome_step (f : pb_state_function) :
    func (pb s) = Some f ->
    cm_get_runtime_busy e = false ->
    callback_outcome X e s (Some (state_function X f e s))
| outcome_null :
    func (pb s) = None ->
    cm_get_runtime_busy e = false ->
    callback_outcome X e s None.

(** ** Concrete machines and polls *)

Definition origin : array float := vec6 0 0 0 0 0 0.
Definition probe_down : array float := vec6 0 0 (-10) 0 0 0.
Definition quarter_turn : array float := vec6 0 0 0 90 0 0.
Definition z_only : array bool := flags6 false false true false false false.
Definition a_only : array bool := flags6 false false false true false false.

(** A probe of Z down to -10 accepted at feed rate 100, and the same
    machine once [_probing_init] has run at the origin. *)
Definition pending_down : machine :=
  snd (cm_straight_probe bench probe_down z_only (power_up 100)).

Definition probing_down : machine :=
  snd (_probing_init bench (idle_at origin 0) pending_down).

(** A probe accepted with its target at the current position. *)
Definition pending_nowhere : machine :=
  snd (cm_straight_probe bench origin z_only (power_up 100)).

(** [probing_down] after [_probing_start] has issued the probe move, and
    after [_probing_start] has found the input active already. *)
Definition probing_down_moving : machine :=
  snd (_probing_start (idle_at origin 0) probing_down).

Definition probing_down_contacted : machine :=
  snd (_probing_start (idle_at origin 1) probing_down).

Definition contact_at : array float := vec6 0 0 (-4) 0 0 0.

(** ** Vocabulary of the further properties *)

Definition idle (e : env) : bool := negb (cm_get_runtime_busy e).

Definition pb_state_function_eq_dec (f g : pb_state_function) :
  {f = g} + {f <> g}.
Proof. decide equality. Defined.

(** The order in which the state functions are bound in the course of a
    cycle. *)
Definition func_rank (f : pb_state_function) : nat :=
  match f with
  | F_probing_init => 0
  | F_probing_start => 1
  | F_probing_backoff => 2
  | F_probing_finish => 3
  | F_probing_finalize_exit => 4
  end.

(** The statuses the callback hands back to the controller. *)
Definition cycle_status (st : stat_t) : Prop :=
  st = STAT_NOOP \/ st = STAT_EAGAIN \/ st = STAT_OK.

(** The diagnostics queued in a stretch of the trace, oldest first. *)
Definition messages_of (tr : list event) : list string :=
  flat_map (fun ev => match ev with
                      | nv_add_conditional_message_ev msg => [msg]
                      | _ => []
                      end) tr.

(** The error exits [_probing_init] takes, by argument and in order: -2
    for a travel below the minimum, then each flagged rotary axis. *)
Definition rotary_error_exit (X : helpers) (s : machine) (axis : nat) : list Z :=
  if fp_TRUE X (flags (pb s) axis) then [Z.of_nat axis] else [].

Definition init_error_exits (X : helpers) (e : env) (s : machine) : list Z :=
  (if probe_travel_too_short X e s then [-2] else [])
  ++ rotary_error_exit X s AXIS_A ++ rotary_error_exit X s AXIS_B
  ++ rotary_error_exit X s AXIS_C.

(** The letter of an axis in the "prb" report. *)
Definition prb_letter (axis : nat) : ascii :=
  match axis with
  | 0 => "x" | 1 => "y" | 2 => "z" | 3 => "a" | 4 => "b" | _ => "c"
  end%nat%char.

(** The straight feeds issued in a stretch of the trace. *)
Definition straight_feeds (tr : list event) : list event :=
  filter is_straight_feed tr.

(** The calls that switch to absolute machine coordinates and to the
    high-speed jerk of every axis. *)
Definition is_setup (ev : event) : bool :=
  match ev with
  | cm_set_distance_mode_ev _ | cm_set_coord_system_ev _
  | cm_set_axis_jerk_ev _ _ => true
  | _ => false
  end.

(** What the cycle keeps of the probing singleton once initialized:
    everything but the dispatch vector. *)
Definition pb_frame (p p' : pbProbingSingleton) : Prop :=
  probe_input p' = probe_input p /\
  saved_distance_mode p' = saved_distance_mode p /\
  saved_coord_system p' = saved_coord_system p /\
  saved_jerk p' = saved_jerk p /\
  target p' = target p /\
  flags p' = flags p.

(** The probe request is the one of [s0]. *)
Definition same_request (s0 : machine) (p : pbProbingSingleton) : Prop :=
  target p = target (pb s0) /\ flags p = flags (pb s0).

Definition no_message (ev : event) : Prop := messages_of [ev] = [].

(** The request is that of [s0] and the diagnostics queued since [s0] are
    [msgs]. *)
Definition queued (s0 : machine) (msgs : list string) (s : machine) : Prop :=
  same_request s0 (pb s) /\
  exists evs, trace s = trace s0 ++ evs /\ messages_of evs = msgs.

(** One pass of the first loop of [_probing_init]: the jerk of the axis
    is saved and the high-speed jerk put in its place. *)
Definition jerk_swapped (s : machine) (axis : nat) : machine :=
  {| pb := set_saved_jerk (aset (saved_jerk (pb s)) axis (jerk_max (a (cm s) axis)))
                          (pb s);
     cm := set_a (aset (a (cm s)) axis
                       (set_jerk_max (jerk_high (a (cm s) axis)) (a (cm s) axis)))
                 (cm s);
     trace := trace s ++ [cm_set_axis_jerk_ev axis (jerk_high (a (cm s) axis))] |}.

(** The statements of [_probing_init] before its checks: the cycle is
    marked, coordinate system and distance mode are saved and made
    absolute, the jerk of every axis is saved and swapped. *)
Definition probe_setup (s : machine) : machine :=
  fold_left jerk_swapped (seq 0 AXES)
    {| pb := set_saved_distance_mode (gm_distance_mode (cm s))
               (set_saved_coord_system (gm_coord_system (cm s)) (pb s));
       cm := set_gm_coord_system ABSOLUTE_COORDS
               (set_gm_distance_mode ABSOLUTE_MODE
                  (set_cycle_state CYCLE_PROBE
                     (set_machine_state MACHINE_CYCLE
                        (set_probe_state PROBE_FAILED (cm s)))));
       trace := trace s ++ [cm_set_distance_mode_ev ABSOLUTE_MODE;
                            cm_set_coord_system_ev ABSOLUTE_COORDS] |}.

(** The settings the cycle saves and restores are in [c] what they are in
    [c0]: the jerk of every axis, the coordinate system, the distance
    mode. *)
Definition same_settings (c0 c : cmSingleton) : Prop :=
  (forall axis, (axis < AXES)%nat ->
     jerk_max (a c axis) = jerk_max (a c0 axis)) /\
  gm_coord_system c = gm_coord_system c0 /\
  gm_distance_mode c = gm_distance_mode c0.

(** The settings of [c] are the ones saved in [p]. *)
Definition settings_as_saved (p : pbProbingSingleton) (c : cmSingleton) : Prop :=
  (forall axis, (axis < AXES)%nat -> jerk_max (a c axis) = saved_jerk p axis) /\
  gm_coord_system c = saved_coord_system p /\
  gm_distance_mode c = saved_distance_mode p.

(** The moves of a cycle whose probe move is made: the probe move, and the
    move back to the contact position if the input is not inactive as
    [_probing_backoff] runs. *)
Definition backoff_moves (X : helpers) (e : env) (s : machine) : list event :=
  if gpio_input e (probe_input (pb s)) =? INPUT_INACTIVE then []
  else [cm_straight_feed_ev
          (kn_forward_kinematics X (en_get_encoder_snapshot_vector e))
          (flags (pb s))].

Definition probe_moves (X : helpers) (e : env) (s : machine) : list event :=
  cm_straight_feed_ev (target (pb s)) (flags (pb s)) :: backoff_moves X e s.

(** The fields of the "prb" report after the result flag: one for each
    axis whose flag is set, in axis order, with the position of that axis. *)
Definition prb_fields (flg : array bool) (position : nat -> float) : list event :=
  map (fun axis => printf_prb_axis_ev (prb_letter axis) (position axis))
      (filter flg (seq 0 AXES)).

(** The calls a computation makes from [s]: what it appends to the
    trace. *)
Definition calls_made {A : Type} (m : M A) (s : machine) : list event :=
  skipn (List.length (trace s)) (trace (snd (m s))).

(** The gpio calls in a stretch of the trace. *)
Definition gpio_calls (tr : list event) : list event := filter is_gpio tr.

(** The probe input and the request are those of [s0], and the gpio calls
    made since [s0] are [calls]. *)
Definition gpio_so_far (s0 : machine) (calls : list event) (s : machine) : Prop :=
  (probe_input (pb s) = probe_input (pb s0) /\ same_request s0 (pb s)) /\
  exists evs, trace s = trace s0 ++ evs /\ gpio_calls evs = calls.

(** * Properties *)

(** ** Planner buffer pool *)

(** C10: the planner buffer pool has exactly 28 slots
    ([PLANNER_BUFFER_POOL_SIZE], the dimension of the pool's storage
    array), which is at least the suggested minimum of 12 and within the
    stated limit of 255. *)
Theorem planner_buffer_pool_size_28 :
  PLANNER_BUFFER_POOL_SIZE = 28 /\
  mpBufferPool_bf_slots = PLANNER_BUFFER_POOL_SIZE /\
  PLANNER_BUFFER_POOL_SUGGESTED_MIN <= PLANNER_BUFFER_POOL_SIZE <= UINT8_MAX.
Proof.
  unfold mpBufferPool_bf_slots, PLANNER_BUFFER_POOL_SIZE,
    PLANNER_BUFFER_POOL_SUGGESTED_MIN, UINT8_MAX.
  repeat split; lia.
Qed.

(** ** Starting a probe *)

Section StraightProbe.

Variable X : helpers.

Lemma cm_straight_probe_cases tgt flg s :
  cm_straight_probe X tgt flg s =
  if fp_ZERO X (gm_feed_rate (cm s)) then (STAT_GCODE_FEEDRATE_NOT_SPECIFIED, s)
  else if linear_axis_flagged flg
       then (STAT_OK, snd (cm_straight_probe X tgt flg s))
       else (STAT_GCODE_AXIS_IS_MISSING, s).
Proof.
  unfold cm_straight_probe, linear_axis_flagged, bind, reads, ret; cbn.
  destruct (fp_ZERO X (gm_feed_rate (cm s))); [reflexivity|].
  destruct (flg AXIS_X), (flg AXIS_Y), (flg AXIS_Z); reflexivity.
Qed.

Lemma cm_straight_probe_accepts tgt flg s :
  fp_ZERO X (gm_feed_rate (cm s)) = false ->
  linear_axis_flagged flg = true ->
  probe_pending tgt flg s (snd (cm_straight_probe X tgt flg s)).
Proof.
  unfold linear_axis_flagged, cm_straight_probe, bind, reads, ret.
  intros Hz Hl. cbn. rewrite Hz.
  destruct (flg AXIS_X), (flg AXIS_Y), (flg AXIS_Z);
    try discriminate Hl; cbn; repeat split; reflexivity.
Qed.

(** C3 (amended): [cm_straight_probe] rejects at call time, leaving the
    machine as it was, with the feed-rate error exactly when [fp_ZERO]
    holds of the feed rate, and otherwise with the missing-axis error
    exactly when none of the X, Y and Z flags is set, whatever the A, B
    and C flags are; on every other input it returns ok and binds the
    initialization function with the probe pending. *)
Theorem cm_straight_probe_rejects_exactly tgt flg s :
  (fst (cm_straight_probe X tgt flg s) = STAT_GCODE_FEEDRATE_NOT_SPECIFIED
   <-> fp_ZERO X (gm_feed_rate (cm s)) = true) /\
  (fst (cm_straight_probe X tgt flg s) = STAT_GCODE_AXIS_IS_MISSING
   <-> fp_ZERO X (gm_feed_rate (cm s)) = false /\
       flg AXIS_X = false /\ flg AXIS_Y = false /\ flg AXIS_Z = false) /\
  (fst (cm_straight_probe X tgt flg s) = STAT_OK
   <-> fp_ZERO X (gm_feed_rate (cm s)) = false /\
       (flg AXIS_X = true \/ flg AXIS_Y = true \/ flg AXIS_Z = true)) /\
  (fst (cm_straight_probe X tgt flg s) <> STAT_OK
   -> snd (cm_straight_probe X tgt flg s) = s) /\
  (fst (cm_straight_probe X tgt flg s) = STAT_OK
   -> probe_pending tgt flg s (snd (cm_straight_probe X tgt flg s))).
Proof.
  pose proof (cm_straight_probe_accepts tgt flg s) as Hacc.
  rewrite cm_straight_probe_cases in *.
  unfold linear_axis_flagged in *.
  destruct (fp_ZERO X (gm_feed_rate (cm s))) eqn:Hz; cbn [fst snd] in *.
  - split; [|split; [|split; [|split]]]; try congruence; intuition congruence.
  - destruct (flg AXIS_X) eqn:Hx, (flg AXIS_Y) eqn:Hy, (flg AXIS_Z) eqn:Hzz;
      cbn [orb fst snd] in *;
      (split; [|split; [|split; [|split]]]);
      try congruence; try tauto; try (intuition congruence).
Qed.

End StraightProbe.

(** ** Rules of the program logic *)

Section Logic.

Context {A B : Type}.

Lemma hoare_ret (P : machine -> Prop) (x : A) (Q : A -> machine -> Prop) :
  (forall s, P s -> Q x s) -> hoare P (ret x) Q.
Proof. intros H s HP. apply H, HP. Qed.

Lemma hoare_bind (P : machine -> Prop) (m : M A) (k : A -> M B)
      (R : A -> machine -> Prop) (Q : B -> machine -> Prop) :
  hoare P m R -> (forall x, hoare (R x) (k x) Q) -> hoare P (bind m k) Q.
Proof.
  intros Hm Hk s HP. unfold bind.
  specialize (Hm s HP). destruct (m s) as [x s'].
  apply Hk. exact Hm.
Qed.

Lemma hoare_top (P : machine -> Prop) (m : M A) :
  hoare P m (fun _ _ => True).
Proof. intros s _. exact I. Qed.

Lemma hoare_reads (P : machine -> Prop) (f : machine -> A) :
  hoare P (reads f) (fun _ => P).
Proof. intros s HP. exact HP. Qed.

Lemma hoare_reads_value (P : machine -> Prop) (f : machine -> A) :
  hoare P (reads f) (fun x s => P s /\ x = f s).
Proof. intros s HP. split; [exact HP | reflexivity]. Qed.

Lemma bind_run (m : M A) (k : A -> M B) (s : machine) :
  bind m k s = k (fst (m s)) (snd (m s)).
Proof. unfold bind. destruct (m s). reflexivity. Qed.

Lemma bind_step (m : M A) (k : A -> M B) (s : machine) (x : A) (s' : machine) :
  m s = (x, s') -> bind m k s = k x s'.
Proof. intros H. unfold bind. rewrite H. reflexivity. Qed.

End Logic.

Lemma when_true (m : M unit) : when true m = m.
Proof. reflexivity. Qed.

Lemma dropped_run {A : Type} (m : M A) (s : machine) :
  snd ((m ;; ret tt) s) = snd (m s).
Proof. unfold bind, ret. destruct (m s). reflexivity. Qed.

Lemma hoare_when (P : machine -> Prop) (b : bool) (m : M unit) :
  hoare P m (fun _ => P) -> hoare P (when b m) (fun _ => P).
Proof.
  intros H. destruct b; cbn; [exact H|].
  intros s HP. exact HP.
Qed.

Lemma hoare_for_each (P : machine -> Prop) (axes : list nat)
      (body : nat -> M unit) :
  (forall axis, hoare P (body axis) (fun _ => P)) ->
  hoare P (for_each axes body) (fun _ => P).
Proof.
  intros H. induction axes as [|axis rest IH]; cbn.
  - intros s HP. exact HP.
  - eapply hoare_bind; [apply H|]. intros []. exact IH.
Qed.

Lemma hoare_for_axis (P : machine -> Prop) (lo hi : nat)
      (body : nat -> M unit) :
  (forall axis, hoare P (body axis) (fun _ => P)) ->
  hoare P (for_axis lo hi body) (fun _ => P).
Proof. intros H. apply hoare_for_each, H. Qed.

(** How the primitives act on an invariant [inv pbP ok tr0]. *)
Section Invariant.

Variable pbP : pbProbingSingleton -> Prop.
Variable ok : event -> Prop.
Variable tr0 : list event.

Lemma grown_refl (s : machine) : grown ok (trace s) s.
Proof. exists []. split; [symmetry; apply app_nil_r | constructor]. Qed.

Lemma grown_app (s s' : machine) (evs : list event) :
  grown ok tr0 s -> trace s' = trace s ++ evs -> Forall ok evs ->
  grown ok tr0 s'.
Proof.
  intros (evs0 & Ht & Hok) Ht' Hevs.
  exists (evs0 ++ evs). split.
  - rewrite Ht', Ht, app_assoc. reflexivity.
  - apply Forall_app. split; assumption.
Qed.

Lemma inv_emit (ev : event) :
  ok ev -> hoare (inv pbP ok tr0) (emit ev) (fun _ => inv pbP ok tr0).
Proof.
  intros Hev s [Hp Hg]. split; [exact Hp|].
  eapply grown_app; [exact Hg | reflexivity | repeat constructor; exact Hev].
Qed.

Lemma inv_modify_cm (f : cmSingleton -> cmSingleton) :
  hoare (inv pbP ok tr0) (modify_cm f) (fun _ => inv pbP ok tr0).
Proof. intros s H. exact H. Qed.

Lemma inv_modify_pb (f : pbProbingSingleton -> pbProbingSingleton) :
  (forall p, pbP p -> pbP (f p)) ->
  hoare (inv pbP ok tr0) (modify_pb f) (fun _ => inv pbP ok tr0).
Proof. intros Hf s [Hp Hg]. split; [apply Hf, Hp | exact Hg]. Qed.

End Invariant.

(** ** The state functions, one at a time *)

Ltac run_cycle :=
  unfold _probing_finalize_exit, _probing_error_exit, _probe_restore_settings,
    _probing_backoff, _probing_start, _set_pb_func,
    cm_set_coord_system, cm_set_distance_mode,
    cm_get_coord_system, cm_get_distance_mode, cm_get_axis_jerk,
    cm_set_axis_jerk, cm_canned_cycle_end, gpio_read_input,
    gpio_set_probing_mode, cm_spindle_optional_pause, cm_spindle_resume,
    cm_straight_feed, cm_queue_flush, cm_set_motion_mode_cancel,
    nv_reset_nv_list, nv_add_conditional_message, nv_print_list,
    for_axis, when, bind, reads, ret, emit, modify_pb, modify_cm;
  cbn.

(** Traces grow by appending on the right; equations between them are
    settled once the appends are nested to the right. *)
Ltac trace_eq :=
  repeat (progress (repeat rewrite <- app_assoc; cbn [app]));
  reflexivity.

Lemma forall_axis (P : nat -> Prop) :
  P AXIS_X -> P AXIS_Y -> P AXIS_Z -> P AXIS_A -> P AXIS_B -> P AXIS_C ->
  forall axis, (axis < AXES)%nat -> P axis.
Proof.
  intros Hx Hy Hz Ha Hb Hc axis H.
  do 6 (destruct axis as [|axis]; [assumption|]).
  exfalso. unfold AXES in H. lia.
Qed.

Ltac each_axis := apply forall_axis; reflexivity.

Section StateFunctions.

Variable X : helpers.

(** *** Cleanup and the two exits *)

Lemma probing_finalize_exit_status e s :
  fst (_probing_finalize_exit e s) = STAT_OK.
Proof. run_cycle. reflexivity. Qed.

Lemma probing_finalize_exit_restores e s :
  settings_restored e s (snd (_probing_finalize_exit e s)).
Proof.
  unfold settings_restored, cleanup_calls. run_cycle.
  split; [each_axis|].
  repeat (split; [reflexivity|]).
  exists []; cbn; trace_eq.
Qed.

Lemma probing_finalize_exit_eq e s :
  _probing_finalize_exit e s = (STAT_OK, snd (_probing_finalize_exit e s)).
Proof. run_cycle. reflexivity. Qed.

Lemma probing_finalize_exit_pb e s :
  pb (snd (_probing_finalize_exit e s)) = pb s.
Proof. run_cycle. reflexivity. Qed.

Lemma probing_finalize_exit_trace e s :
  trace (snd (_probing_finalize_exit e s)) = trace s ++ cleanup_calls e s.
Proof. unfold cleanup_calls. run_cycle. trace_eq. Qed.

Lemma probing_finalize_exit_cycle_off e s :
  cycle_state (cm (snd (_probing_finalize_exit e s))) = CYCLE_OFF /\
  probe_state (cm (snd (_probing_finalize_exit e s))) = probe_state (cm s) /\
  probe_results (cm (snd (_probing_finalize_exit e s))) = probe_results (cm s).
Proof. run_cycle. repeat split. Qed.

Lemma probing_error_exit_status e axis s :
  fst (_probing_error_exit X e axis s) = STAT_PROBE_CYCLE_FAILED.
Proof. run_cycle. destruct (axis =? -2); reflexivity. Qed.

Lemma probing_error_exit_pb e axis s :
  pb (snd (_probing_error_exit X e axis s)) = pb s.
Proof. run_cycle. destruct (axis =? -2); reflexivity. Qed.

Lemma probing_error_exit_trace e axis s :
  trace (snd (_probing_error_exit X e axis s))
  = trace s ++ error_exit_report X axis ++ cleanup_calls e s.
Proof.
  unfold error_exit_report, error_exit_message, cleanup_calls. run_cycle.
  destruct (axis =? -2); cbn; trace_eq.
Qed.

Lemma probing_error_exit_jerk e axis s :
  forall ax, (ax < AXES)%nat ->
    jerk_max (a (cm (snd (_probing_error_exit X e axis s))) ax)
    = saved_jerk (pb s) ax.
Proof. run_cycle. destruct (axis =? -2); cbn; each_axis. Qed.

Lemma probing_error_exit_coord_system e axis s :
  gm_coord_system (cm (snd (_probing_error_exit X e axis s)))
  = saved_coord_system (pb s).
Proof. run_cycle. destruct (axis =? -2); reflexivity. Qed.

Lemma probing_error_exit_distance_mode e axis s :
  gm_distance_mode (cm (snd (_probing_error_exit X e axis s)))
  = saved_distance_mode (pb s).
Proof. run_cycle. destruct (axis =? -2); reflexivity. Qed.

Lemma probing_error_exit_restores e axis s :
  settings_restored e s (snd (_probing_error_exit X e axis s)).
Proof.
  unfold settings_restored.
  split; [apply probing_error_exit_jerk|].
  split; [apply probing_error_exit_coord_system|].
  split; [apply probing_error_exit_distance_mode|].
  split; [apply probing_error_exit_pb|].
  exists (error_exit_report X axis). apply probing_error_exit_trace.
Qed.

(** C2: both exits of the cycle, [_probing_finalize_exit] and
    [_probing_error_exit] (with any argument), restore the saved per-axis
    jerk, the saved coordinate system and the saved distance mode, disarm
    the probe input and resume the spindle, from every machine state and
    under no condition. *)
Theorem probing_exits_restore_settings e s :
  settings_restored e s (snd (_probing_finalize_exit e s)) /\
  (forall axis, settings_restored e s (snd (_probing_error_exit X e axis s))).
Proof.
  split.
  - apply probing_finalize_exit_restores.
  - intros axis. apply probing_error_exit_restores.
Qed.

(** *** start and backoff *)

Lemma probing_start_open e s :
  gpio_input e (probe_input (pb s)) = INPUT_INACTIVE ->
  _probing_start e s =
  (STAT_EAGAIN,
   {| pb := set_func (Some F_probing_backoff) (pb s);
      cm := cm s;
      trace := trace s ++ [probe_read e s;
                           cm_straight_feed_ev (target (pb s)) (flags (pb s))] |}).
Proof.
  intros H. unfold probe_read. run_cycle. rewrite H. cbn.
  do 2 f_equal. trace_eq.
Qed.

Lemma probing_start_contacted e s :
  gpio_input e (probe_input (pb s)) <> INPUT_INACTIVE ->
  _probing_start e s =
  (STAT_EAGAIN,
   {| pb := set_func (Some F_probing_finish) (pb s);
      cm := set_probe_state PROBE_SUCCEEDED (cm s);
      trace := trace s ++ [probe_read e s] |}).
Proof.
  intros H. unfold probe_read. run_cycle.
  apply Z.eqb_neq in H. rewrite H. reflexivity.
Qed.

Lemma probing_backoff_open e s :
  gpio_input e (probe_input (pb s)) = INPUT_INACTIVE ->
  _probing_backoff X e s =
  (STAT_EAGAIN,
   {| pb := set_func (Some F_probing_finish) (pb s);
      cm := set_probe_state PROBE_FAILED (cm s);
      trace := trace s ++ [probe_read e s] |}).
Proof.
  intros H. unfold probe_read. run_cycle. rewrite H. reflexivity.
Qed.

Lemma probing_backoff_contacted e s :
  gpio_input e (probe_input (pb s)) <> INPUT_INACTIVE ->
  _probing_backoff X e s =
  (STAT_EAGAIN,
   {| pb := set_func (Some F_probing_finish) (pb s);
      cm := set_probe_state PROBE_SUCCEEDED (cm s);
      trace := trace s ++
        [probe_read e s; cm_queue_flush_ev;
         cm_straight_feed_ev
           (kn_forward_kinematics X (en_get_encoder_snapshot_vector e))
           (flags (pb s))] |}).
Proof.
  intros H. unfold probe_read. run_cycle.
  apply Z.eqb_neq in H. rewrite H. cbn.
  do 2 f_equal. trace_eq.
Qed.

(** *** init *)

Section InitInvariant.

Variable pbP : pbProbingSingleton -> Prop.
Variable ok : event -> Prop.
Variable tr0 : list event.

Hypothesis pbP_request :
  forall p p',
    probe_input p' = probe_input p -> target p' = target p ->
    pbP p -> pbP p'.
Hypothesis ok_other : forall ev, is_gpio ev = false -> ok ev.
Hypothesis ok_disarm :
  forall p, pbP p -> ok (gpio_set_probing_mode_ev (probe_input p) false).

Lemma inv_ret {A : Type} (x : A) :
  hoare (inv pbP ok tr0) (ret x) (fun _ => (inv pbP ok tr0)).
Proof. intros s H. exact H. Qed.

Lemma inv_call (f : cmSingleton -> cmSingleton) (ev : event) :
  is_gpio ev = false ->
  hoare (inv pbP ok tr0) (modify_cm f ;; emit ev) (fun _ => (inv pbP ok tr0)).
Proof.
  intros H. eapply hoare_bind; [apply inv_modify_cm|].
  intros ?. apply inv_emit, ok_other, H.
Qed.

Lemma inv_probing_error_exit e axis :
  hoare (inv pbP ok tr0) (_probing_error_exit X e axis)
        (fun _ => (inv pbP ok tr0)).
Proof.
  intros s [Hp Hg]. split.
  - rewrite probing_error_exit_pb. exact Hp.
  - eapply grown_app; [exact Hg | apply probing_error_exit_trace |].
    apply Forall_app. split.
    + repeat constructor; apply ok_other; reflexivity.
    + unfold cleanup_calls. repeat constructor;
        try (apply ok_other; reflexivity).
      apply ok_disarm, Hp.
Qed.

Lemma inv_probing_error_exit_dropped e axis :
  hoare (inv pbP ok tr0) (_probing_error_exit X e axis ;; ret tt)
        (fun _ => (inv pbP ok tr0)).
Proof.
  eapply hoare_bind; [apply inv_probing_error_exit|].
  intros ?. apply inv_ret.
Qed.

(** [_probing_init] in three phases.  Up to the travel check it keeps the
    invariant; the travel check leads from the invariant to [J]; the three
    rotary checks keep [J]; the last statements lead to [probe_armed]. *)
Lemma probing_init_phases e (J : machine -> Prop)
      (Q : stat_t -> machine -> Prop) :
  (forall tgt,
     hoare (fun s => inv pbP ok tr0 s /\ tgt = target (pb s))
           (when (Qltb (get_axis_vector_length X (cm_get_absolute_position e) tgt)
                       MINIMUM_PROBE_TRAVEL)
                 (_probing_error_exit X e (-2) ;; ret tt))
           (fun _ => J)) ->
  (forall axis, hoare J (_probing_error_exit X e axis ;; ret tt) (fun _ => J)) ->
  (forall s, J s -> Q STAT_EAGAIN (probe_armed s)) ->
  hoare (inv pbP ok tr0) (_probing_init X e) Q.
Proof.
  intros Htravel Hrotary HQ. unfold _probing_init.
  do 3 (eapply hoare_bind; [apply inv_modify_cm | intros ?]).
  eapply hoare_bind; [apply hoare_reads | intros coord_system].
  eapply hoare_bind;
    [apply inv_modify_pb; intros p; apply pbP_request; reflexivity
    | intros ?].
  eapply hoare_bind; [apply hoare_reads | intros distance_mode].
  eapply hoare_bind;
    [apply inv_modify_pb; intros p; apply pbP_request; reflexivity
    | intros ?].
  eapply hoare_bind; [apply inv_call; reflexivity | intros ?].
  eapply hoare_bind; [apply inv_call; reflexivity | intros ?].
  eapply hoare_bind.
  { apply hoare_for_axis. intros axis.
    eapply hoare_bind; [apply hoare_reads | intros jerk].
    eapply hoare_bind;
      [apply inv_modify_pb; intros p; apply pbP_request; reflexivity
      | intros ?].
    eapply hoare_bind; [apply hoare_reads | intros high].
    apply inv_call. reflexivity. }
  intros ?.
  eapply hoare_bind; [apply hoare_reads_value | intros tgt].
  eapply hoare_bind; [apply Htravel | intros ?].
  eapply hoare_bind.
  { apply hoare_for_axis. intros axis.
    eapply hoare_bind; [apply hoare_reads | intros flag].
    apply hoare_when, Hrotary. }
  intros ? s Hs.
  replace (fst _) with STAT_EAGAIN by reflexivity.
  replace (snd _) with (probe_armed s).
  - apply HQ, Hs.
  - unfold probe_armed, init_arming_calls. run_cycle.
    do 1 f_equal. trace_eq.
Qed.

(** With one invariant throughout. *)
Lemma probing_init_hoare e (Q : stat_t -> machine -> Prop) :
  (forall s, (inv pbP ok tr0) s -> Q STAT_EAGAIN (probe_armed s)) ->
  hoare (inv pbP ok tr0) (_probing_init X e) Q.
Proof.
  intros HQ. apply (probing_init_phases e (inv pbP ok tr0)).
  - intros tgt s [Hs _].
    destruct (Qltb _ _); cbn [when].
    + apply inv_probing_error_exit_dropped, Hs.
    + exact Hs.
  - apply inv_probing_error_exit_dropped.
  - exact HQ.
Qed.

End InitInvariant.

Lemma probing_init_status e s : fst (_probing_init X e s) = STAT_EAGAIN.
Proof.
  apply (probing_init_hoare any_pb any_event (trace s)
           (fun _ _ _ _ _ => I) (fun _ _ => I) (fun _ _ => I) e
           (fun st _ => st = STAT_EAGAIN)).
  - reflexivity.
  - split; [exact I | apply grown_refl].
Qed.

Lemma probing_init_armed e s :
  func (pb (snd (_probing_init X e s))) = Some F_probing_start /\
  probe_input (pb (snd (_probing_init X e s))) = 5 /\
  exists before,
    trace (snd (_probing_init X e s)) = trace s ++ before ++ init_arming_calls.
Proof.
  apply (probing_init_hoare any_pb any_event (trace s)
           (fun _ _ _ _ _ => I) (fun _ _ => I) (fun _ _ => I) e
           (fun _ s' =>
              func (pb s') = Some F_probing_start /\
              probe_input (pb s') = 5 /\
              exists before,
                trace s' = trace s ++ before ++ init_arming_calls)).
  - intros s1 [_ (evs & Ht & _)]. cbn. repeat split.
    exists evs. rewrite Ht, app_assoc. reflexivity.
  - split; [exact I | apply grown_refl].
Qed.

(** Whenever the travel check fails, [_probing_init] makes the error exit
    for the invalid destination and then carries on to its last
    statements: the status is in-progress, [_probing_start] is bound, and
    the trace has the error report followed, later, by the arming calls. *)
Lemma probing_init_short_travel e s :
  probe_travel_too_short X e s = true ->
  fst (_probing_init X e s) = STAT_EAGAIN /\
  func (pb (snd (_probing_init X e s))) = Some F_probing_start /\
  exists before after,
    trace (snd (_probing_init X e s)) =
    trace s ++ before ++ error_exit_report X (-2) ++ after ++ init_arming_calls.
Proof.
  intros Hshort.
  apply (probing_init_phases
           (fun p => target p = target (pb s)) any_event (trace s)
           (fun p p' _ Ht H => eq_trans Ht H) (fun _ _ => I) e
           (fun s1 => exists before after,
              trace s1 = trace s ++ before ++ error_exit_report X (-2) ++ after)
           (fun st s' =>
              st = STAT_EAGAIN /\
              func (pb s') = Some F_probing_start /\
              exists before after,
                trace s' =
                trace s ++ before ++ error_exit_report X (-2) ++ after
                ++ init_arming_calls)).
  - intros tgt s1 [[Ht (evs & Htr & _)] Htgt].
    unfold probe_travel_too_short in Hshort.
    destruct (Qltb (get_axis_vector_length X (cm_get_absolute_position e) tgt)
                   MINIMUM_PROBE_TRAVEL) eqn:Hc.
    + rewrite when_true, dropped_run.
      rewrite probing_error_exit_trace, Htr.
      exists evs, (cleanup_calls e s1). trace_eq.
    + exfalso. subst tgt. rewrite Ht in Hc. congruence.
  - intros axis s1 (before & after & Htr).
    rewrite dropped_run.
    rewrite probing_error_exit_trace, Htr.
    exists before, (after ++ error_exit_report X axis ++ cleanup_calls e s1).
    trace_eq.
  - intros s1 (before & after & Htr).
    split; [reflexivity|]. split; [reflexivity|].
    exists before, after. cbn [probe_armed trace]. rewrite Htr. trace_eq.
  - split; [reflexivity | apply grown_refl].
Qed.

(** *** finish *)

Lemma printf_prb_axis_run axis letter s :
  printf_prb_axis axis letter s =
  (tt, {| pb := pb s; cm := cm s;
          trace := trace s ++ prb_field (flags (pb s)) (probe_results (cm s))
                                        axis letter |}).
Proof.
  unfold printf_prb_axis, prb_field, when, bind, reads, ret, emit.
  destruct (flags (pb s) axis); [reflexivity|].
  destruct s; cbn. rewrite app_nil_r. reflexivity.
Qed.

Lemma probing_finish_run e s :
  _probing_finish e s =
  (STAT_EAGAIN,
   {| pb := set_func (Some F_probing_finalize_exit) (pb s);
      cm := set_probe_results
              (position_stored e (probe_results (cm s)))
              (set_probe_state (finish_probe_state e s) (cm s));
      trace := trace s ++
        probe_read e s ::
        prb_report (finish_probe_state e s) (flags (pb s))
                   (position_stored e (probe_results (cm s))) |}).
Proof.
  unfold _probing_finish.
  do 6 (erewrite bind_step by (run_cycle; reflexivity)).
  do 6 (erewrite bind_step by (apply printf_prb_axis_run)).
  cbn [pb cm trace].
  unfold probe_read, prb_report, position_stored, finish_probe_state.
  run_cycle. unfold set_probe_results, set_probe_state, set_func. cbn.
  do 2 f_equal. trace_eq.
Qed.

Lemma prb_report_quiet state flg res :
  Forall (fun ev => is_gpio ev = false /\ is_straight_feed ev = false)
         (prb_report state flg res).
Proof.
  unfold prb_report, prb_field.
  destruct (flg AXIS_X), (flg AXIS_Y), (flg AXIS_Z),
    (flg AXIS_A), (flg AXIS_B), (flg AXIS_C);
    cbn; repeat constructor.
Qed.

Lemma position_stored_axis e old :
  forall axis, (axis < AXES)%nat ->
    position_stored e old axis = cm_get_absolute_position e axis.
Proof. unfold position_stored. cbn. each_axis. Qed.

(** C6: in [_probing_backoff], a probe input that is not inactive marks
    success, flushes the planner queue and issues one straight feed, to the
    forward-kinematics image of the encoder snapshot and with the probe's
    axis flags; an inactive input marks failure and issues no move.  Either
    way the finish function is bound next. *)
Theorem probing_backoff_contact_position e s :
  (gpio_input e (probe_input (pb s)) <> INPUT_INACTIVE ->
   fst (_probing_backoff X e s) = STAT_EAGAIN /\
   probe_state (cm (snd (_probing_backoff X e s))) = PROBE_SUCCEEDED /\
   func (pb (snd (_probing_backoff X e s))) = Some F_probing_finish /\
   trace (snd (_probing_backoff X e s)) =
   trace s ++
   [ gpio_read_input_ev (probe_input (pb s)) (gpio_input e (probe_input (pb s)));
     cm_queue_flush_ev;
     cm_straight_feed_ev
       (kn_forward_kinematics X (en_get_encoder_snapshot_vector e))
       (flags (pb s)) ]) /\
  (gpio_input e (probe_input (pb s)) = INPUT_INACTIVE ->
   fst (_probing_backoff X e s) = STAT_EAGAIN /\
   probe_state (cm (snd (_probing_backoff X e s))) = PROBE_FAILED /\
   func (pb (snd (_probing_backoff X e s))) = Some F_probing_finish /\
   trace (snd (_probing_backoff X e s)) =
   trace s ++
   [ gpio_read_input_ev (probe_input (pb s))
                        (gpio_input e (probe_input (pb s))) ]).
Proof.
  split; intros H.
  - rewrite (probing_backoff_contacted e s H). repeat split.
  - rewrite (probing_backoff_open e s H). repeat split.
Qed.

(** C8: the result [_probing_finish] records and reports is decided by
    the probe input as read when finish runs, compared against [true]; the
    probe state recorded before plays no part.  In particular an input that
    does not read [true] at finish gives a failed result even where success
    had been recorded. *)
Theorem probing_finish_rereads_input e s :
  probe_state (cm (snd (_probing_finish e s))) =
  (if gpio_input e (probe_input (pb s)) =? C_true
   then PROBE_SUCCEEDED else PROBE_FAILED) /\
  (exists fields,
     trace (snd (_probing_finish e s)) =
     trace s ++
     [ gpio_read_input_ev (probe_input (pb s))
                          (gpio_input e (probe_input (pb s)));
       printf_prb_e_ev (if gpio_input e (probe_input (pb s)) =? C_true
                        then 1 else 0) ] ++ fields) /\
  (probe_state (cm s) = PROBE_SUCCEEDED ->
   gpio_input e (probe_input (pb s)) <> C_true ->
   probe_state (cm (snd (_probing_finish e s))) = PROBE_FAILED).
Proof.
  rewrite probing_finish_run. cbn [snd cm trace probe_state set_probe_results
                                   set_probe_state].
  unfold finish_probe_state, prb_report, probe_read.
  split; [reflexivity|]. split.
  - eexists. cbn [app]. do 3 f_equal.
    destruct (gpio_input e (probe_input (pb s)) =? C_true); reflexivity.
  - intros _ H. apply Z.eqb_neq in H. rewrite H. reflexivity.
Qed.

End StateFunctions.

(** ** The callback and the polling loop *)

Section Callback.

Variable X : helpers.

Lemma callback_active e s :
  cycle_state (cm s) = CYCLE_PROBE \/ probe_state (cm s) = PROBE_WAITING ->
  cm_probing_cycle_callback X e s =
  if cm_get_runtime_busy e then Some (STAT_EAGAIN, s) else pb_func_call X e s.
Proof.
  unfold cm_probing_cycle_callback.
  intros [H | H]; rewrite H; cbn.
  - reflexivity.
  - rewrite andb_false_r. reflexivity.
Qed.

Lemma callback_runs e s f :
  cycle_state (cm s) = CYCLE_PROBE ->
  cm_get_runtime_busy e = false ->
  func (pb s) = Some f ->
  cm_probing_cycle_callback X e s = Some (state_function X f e s).
Proof.
  intros Hc Hb Hf. rewrite callback_active by (left; exact Hc).
  rewrite Hb. unfold pb_func_call. rewrite Hf. reflexivity.
Qed.

Lemma callback_outcomes e s :
  callback_outcome X e s (cm_probing_cycle_callback X e s).
Proof.
  unfold cm_probing_cycle_callback.
  destruct (negb (cycle_is_probe (cycle_state (cm s)))
            && negb (probe_state_eqb (probe_state (cm s)) PROBE_WAITING)).
  - constructor.
  - destruct (cm_get_runtime_busy e) eqn:Hb.
    + constructor.
    + unfold pb_func_call. destruct (func (pb s)) as [f|] eqn:Hf.
      * apply outcome_step; assumption.
      * apply outcome_null; assumption.
Qed.

(** C7: while a probe cycle is active or pending and the runtime reports
    busy, the callback returns the in-progress status and leaves the
    machine, dispatch vector included, exactly as it was; and whatever the
    runtime reports, one call of the callback runs at most one state
    function, the one bound in [pb.func], and only with an idle runtime. *)
Theorem callback_waits_while_runtime_busy e s :
  (cycle_state (cm s) = CYCLE_PROBE \/ probe_state (cm s) = PROBE_WAITING ->
   cm_get_runtime_busy e = true ->
   cm_probing_cycle_callback X e s = Some (STAT_EAGAIN, s)) /\
  callback_outcome X e s (cm_probing_cycle_callback X e s).
Proof.
  split.
  - intros Ha Hb. rewrite callback_active by exact Ha.
    rewrite Hb. reflexivity.
  - apply callback_outcomes.
Qed.

(** *** Input 5 *)

Lemma inv5_other ev : is_gpio ev = false -> on_input_5 ev.
Proof. destruct ev; cbn; intros H; try exact I; discriminate H. Qed.

Lemma state_function_bound f e s :
  func (pb s) <> None ->
  func (pb (snd (state_function X f e s))) <> None.
Proof.
  intros Hs. destruct f; cbn [state_function].
  - pose proof (probing_init_armed X e s) as (H & _). rewrite H. discriminate.
  - destruct (Z.eq_dec (gpio_input e (probe_input (pb s))) INPUT_INACTIVE) as [H|H].
    + rewrite probing_start_open by exact H. discriminate.
    + rewrite probing_start_contacted by exact H. discriminate.
  - destruct (Z.eq_dec (gpio_input e (probe_input (pb s))) INPUT_INACTIVE) as [H|H].
    + rewrite probing_backoff_open by exact H. discriminate.
    + rewrite probing_backoff_contacted by exact H. discriminate.
  - rewrite probing_finish_run. discriminate.
  - rewrite probing_finalize_exit_pb. exact Hs.
Qed.

Lemma state_function_input_5 tr0 f e :
  hoare (inv probes_input_5 on_input_5 tr0) (state_function X f e)
        (fun _ => inv probes_input_5 on_input_5 tr0).
Proof.
  destruct f; cbn [state_function].
  - apply probing_init_hoare.
    + intros p p' H _. unfold probes_input_5. congruence.
    + apply inv5_other.
    + intros p H. exact H.
    + intros s [Hp Hg]. split; [reflexivity|].
      eapply grown_app; [exact Hg | reflexivity |].
      repeat constructor.
  - intros s [Hp Hg].
    destruct (Z.eq_dec (gpio_input e (probe_input (pb s))) INPUT_INACTIVE) as [H|H].
    + rewrite probing_start_open by exact H. split; [exact Hp|].
      eapply grown_app; [exact Hg | reflexivity |].
      repeat constructor. exact Hp.
    + rewrite probing_start_contacted by exact H. split; [exact Hp|].
      eapply grown_app; [exact Hg | reflexivity |].
      repeat constructor. exact Hp.
  - intros s [Hp Hg].
    destruct (Z.eq_dec (gpio_input e (probe_input (pb s))) INPUT_INACTIVE) as [H|H].
    + rewrite probing_backoff_open by exact H. split; [exact Hp|].
      eapply grown_app; [exact Hg | reflexivity |].
      repeat constructor. exact Hp.
    + rewrite probing_backoff_contacted by exact H. split; [exact Hp|].
      eapply grown_app; [exact Hg | reflexivity |].
      repeat constructor. exact Hp.
  - intros s [Hp Hg]. rewrite probing_finish_run. split; [exact Hp|].
    eapply grown_app; [exact Hg | reflexivity |].
    constructor; [exact Hp|].
    eapply Forall_impl; [|apply prb_report_quiet].
    intros ev [H _]. apply inv5_other, H.
  - intros s [Hp Hg].
    split.
    + rewrite probing_finalize_exit_pb. exact Hp.
    + eapply grown_app; [exact Hg | apply probing_finalize_exit_trace |].
      unfold cleanup_calls. repeat constructor. exact Hp.
Qed.

Lemma poll_input_5 tr0 es :
  forall s,
    func (pb s) <> None ->
    inv probes_input_5 on_input_5 tr0 s ->
    exists sts s',
      poll X es s = Some (sts, s') /\
      func (pb s') <> None /\
      inv probes_input_5 on_input_5 tr0 s'.
Proof.
  induction es as [|e rest IH]; intros s Hf Hs; cbn [poll].
  - exists [], s. split; [reflexivity|]. split; assumption.
  - destruct (callback_outcomes e s) as [ | | f Hfs Hb | Hnull Hb].
    + destruct (IH s Hf Hs) as (sts & s' & -> & Hf' & Hs').
      exists (STAT_NOOP :: sts), s'. split; [reflexivity|]. split; assumption.
    + destruct (IH s Hf Hs) as (sts & s' & -> & Hf' & Hs').
      exists (STAT_EAGAIN :: sts), s'. split; [reflexivity|]. split; assumption.
    + pose proof (state_function_bound f e s Hf) as Hf1.
      pose proof (state_function_input_5 tr0 f e s Hs) as Hs1.
      destruct (state_function X f e s) as [st s1]. cbn [fst snd] in *.
      destruct (IH s1 Hf1 Hs1) as (sts & s' & -> & Hf' & Hs').
      exists (st :: sts), s'. split; [reflexivity|]. split; assumption.
    + contradiction.
Qed.

(** *** Whole cycles *)

Lemma poll_step e rest s st s1 :
  cm_probing_cycle_callback X e s = Some (st, s1) ->
  poll X (e :: rest) s =
  match poll X rest s1 with
  | Some (sts, s') => Some (st :: sts, s')
  | None => None
  end.
Proof. intros H. cbn [poll]. rewrite H. reflexivity. Qed.


(** C5 (amended): when the probe input is not inactive as
    [_probing_start] runs, start records success and binds finish
    directly, and no straight feed is issued in the whole cycle; the cycle
    completes with ok, and its result is success if the input reads [true]
    as finish runs and failed otherwise. *)
Theorem probe_contact_before_move s e1 e2 e3 :
  func (pb s) = Some F_probing_start ->
  cycle_state (cm s) = CYCLE_PROBE ->
  cm_get_runtime_busy e1 = false -> cm_get_runtime_busy e2 = false ->
  cm_get_runtime_busy e3 = false ->
  gpio_input e1 (probe_input (pb s)) <> INPUT_INACTIVE ->
  probe_state (cm (snd (_probing_start e1 s))) = PROBE_SUCCEEDED /\
  func (pb (snd (_probing_start e1 s))) = Some F_probing_finish /\
  exists s' evs,
    poll X [e1; e2; e3] s = Some ([STAT_EAGAIN; STAT_EAGAIN; STAT_OK], s') /\
    probe_state (cm s') =
    (if gpio_input e2 (probe_input (pb s)) =? C_true
     then PROBE_SUCCEEDED else PROBE_FAILED) /\
    trace s' = trace s ++ evs /\
    Forall (fun ev => is_straight_feed ev = false) evs.
Proof.
  intros Hf Hc Hb1 Hb2 Hb3 H1.
  pose proof (probing_start_contacted e1 s H1) as E1.
  set (s1 := snd (_probing_start e1 s)).
  assert (Hs1 : _probing_start e1 s = (STAT_EAGAIN, s1))
    by (unfold s1; rewrite E1; reflexivity).
  assert (P1 : pb s1 = set_func (Some F_probing_finish) (pb s) /\
               cm s1 = set_probe_state PROBE_SUCCEEDED (cm s) /\
               trace s1 = trace s ++ [probe_read e1 s])
    by (unfold s1; rewrite E1; repeat split).
  destruct P1 as (Pb1 & Cm1 & Tr1). clearbody s1. clear E1.
  split; [rewrite Cm1; reflexivity|].
  split; [rewrite Pb1; reflexivity|].
  pose proof (probing_finish_run e2 s1) as E2.
  set (s2 := snd (_probing_finish e2 s1)).
  assert (Hs2 : _probing_finish e2 s1 = (STAT_EAGAIN, s2))
    by (unfold s2; rewrite E2; reflexivity).
  assert (P2 : pb s2 = set_func (Some F_probing_finalize_exit) (pb s1) /\
               cm s2 = set_probe_results
                         (position_stored e2 (probe_results (cm s1)))
                         (set_probe_state (finish_probe_state e2 s1) (cm s1)) /\
               trace s2 = trace s1 ++ probe_read e2 s1 ::
                 prb_report (finish_probe_state e2 s1) (flags (pb s1))
                   (position_stored e2 (probe_results (cm s1))))
    by (unfold s2; rewrite E2; repeat split).
  destruct P2 as (Pb2 & Cm2 & Tr2). clearbody s2. clear E2.
  exists (snd (_probing_finalize_exit e3 s2)).
  exists ([probe_read e1 s] ++
          (probe_read e2 s1 ::
             prb_report (finish_probe_state e2 s1) (flags (pb s1))
               (position_stored e2 (probe_results (cm s1))))
          ++ cleanup_calls e3 s2).
  split; [|split; [|split]].
  - rewrite (poll_step e1 _ s STAT_EAGAIN s1)
      by (rewrite (callback_runs e1 s F_probing_start) by assumption;
          cbn [state_function]; rewrite Hs1; reflexivity).
    rewrite (poll_step e2 _ s1 STAT_EAGAIN s2)
      by (rewrite (callback_runs e2 s1 F_probing_finish);
          [ cbn [state_function]; rewrite Hs2; reflexivity
          | rewrite Cm1; exact Hc | exact Hb2 | rewrite Pb1; reflexivity ]).
    rewrite (poll_step e3 _ s2 STAT_OK (snd (_probing_finalize_exit e3 s2)))
      by (rewrite (callback_runs e3 s2 F_probing_finalize_exit);
          [ cbn [state_function];
            rewrite probing_finalize_exit_eq at 1; reflexivity
          | rewrite Cm2, Cm1; exact Hc | exact Hb3
          | rewrite Pb2; reflexivity ]).
    reflexivity.
  - destruct (probing_finalize_exit_cycle_off e3 s2) as (_ & -> & _).
    rewrite Cm2. unfold finish_probe_state. rewrite Pb1. reflexivity.
  - rewrite probing_finalize_exit_trace, Tr2, Tr1. trace_eq.
  - apply Forall_app. split; [repeat constructor|].
    apply Forall_app. split.
    + constructor; [reflexivity|].
      eapply Forall_impl; [|apply prb_report_quiet].
      intros ev [_ H]. exact H.
    + unfold cleanup_calls. repeat constructor.
Qed.

End Callback.

(** ** Concrete runs *)

(** C1: the machine is at the origin and the accepted probe target is the
    origin, so the travel is below [MINIMUM_PROBE_TRAVEL].  [_probing_init]
    reports the invalid destination and runs cleanup, and then goes on: it
    arms input 5, pauses the spindle, binds [_probing_start] and returns
    the in-progress status instead of the probe-cycle-failed one. *)
Theorem probing_init_short_travel_goes_on :
  probe_travel_too_short bench (idle_at origin 0) pending_nowhere = true /\
  fst (_probing_init bench (idle_at origin 0) pending_nowhere) = STAT_EAGAIN /\
  func (pb (snd (_probing_init bench (idle_at origin 0) pending_nowhere)))
  = Some F_probing_start /\
  trace (snd (_probing_init bench (idle_at origin 0) pending_nowhere)) =
  [ cm_set_distance_mode_ev 0; cm_set_coord_system_ev 0;
    cm_set_axis_jerk_ev 0 200; cm_set_axis_jerk_ev 1 200;
    cm_set_axis_jerk_ev 2 200; cm_set_axis_jerk_ev 3 200;
    cm_set_axis_jerk_ev 4 200; cm_set_axis_jerk_ev 5 200;
    nv_reset_nv_list_ev;
    nv_add_conditional_message_ev "Probing error - invalid probe destination";
    nv_print_list_ev STAT_PROBE_CYCLE_FAILED;
    cm_queue_flush_ev; gpio_set_probing_mode_ev 0 false;
    cm_set_coord_system_ev 1; cm_set_distance_mode_ev 0;
    cm_spindle_resume_ev 0;
    cm_set_motion_mode_cancel_ev; cm_canned_cycle_end_ev;
    gpio_set_probing_mode_ev 5 true; cm_spindle_optional_pause_ev true ].
Proof. vm_compute. repeat split. Qed.

(** C3, as stated, fails: with a feed rate of 100 and the A flag set (so
    not every axis flag is false) the probe is still rejected with the
    missing-axis error, and nothing is changed. *)
Lemma cm_straight_probe_rotary_only_rejected :
  fp_ZERO bench (gm_feed_rate (cm (power_up 100))) = false /\
  a_only AXIS_A = true /\
  cm_straight_probe bench quarter_turn a_only (power_up 100)
  = (STAT_GCODE_AXIS_IS_MISSING, power_up 100).
Proof. vm_compute. repeat split. Qed.

(** C5, as stated, fails: the input reads active when start runs and
    inactive when finish runs; the cycle completes with ok and a failed
    result. *)
Lemma probe_contact_lost_before_finish :
  func (pb probing_down) = Some F_probing_start /\
  cycle_state (cm probing_down) = CYCLE_PROBE /\
  gpio_input (idle_at origin 1) (probe_input (pb probing_down)) = C_true /\
  option_map (fun r => (fst r, probe_state (cm (snd r))))
    (poll bench [idle_at origin 1; idle_at origin 0; idle_at origin 0]
          probing_down)
  = Some ([STAT_EAGAIN; STAT_EAGAIN; STAT_OK], PROBE_FAILED).
Proof. vm_compute. repeat split. Qed.


(** The cycle of C5 on [probing_down] with the input active throughout. *)
Lemma probe_contact_before_move_run :
  probe_state (cm (snd (_probing_start (idle_at origin 1) probing_down)))
  = PROBE_SUCCEEDED /\
  func (pb (snd (_probing_start (idle_at origin 1) probing_down)))
  = Some F_probing_finish /\
  exists s' evs,
    poll bench [idle_at origin 1; idle_at origin 1; idle_at origin 1]
         probing_down
    = Some ([STAT_EAGAIN; STAT_EAGAIN; STAT_OK], s') /\
    probe_state (cm s') =
    (if gpio_input (idle_at origin 1) (probe_input (pb probing_down)) =? C_true
     then PROBE_SUCCEEDED else PROBE_FAILED) /\
    trace s' = trace probing_down ++ evs /\
    Forall (fun ev => is_straight_feed ev = false) evs.
Proof.
  apply (probe_contact_before_move bench probing_down
           (idle_at origin 1) (idle_at origin 1) (idle_at origin 1));
    try (vm_compute; reflexivity).
  vm_compute. discriminate.
Defined.

(** C3 on two requests: the rotary-only one is rejected and changes
    nothing, the Z probe is accepted and left pending. *)
Lemma cm_straight_probe_run :
  snd (cm_straight_probe bench quarter_turn a_only (power_up 100))
  = power_up 100 /\
  probe_pending probe_down z_only (power_up 100)
    (snd (cm_straight_probe bench probe_down z_only (power_up 100))).
Proof.
  split.
  - apply (proj1 (proj2 (proj2 (proj2
      (cm_straight_probe_rejects_exactly bench quarter_turn a_only
         (power_up 100)))))).
    vm_compute. discriminate.
  - apply (proj2 (proj2 (proj2 (proj2
      (cm_straight_probe_rejects_exactly bench probe_down z_only
         (power_up 100)))))).
    vm_compute. reflexivity.
Defined.

(** C6 on a probe move that made contact at Z = -4. *)
Lemma probing_backoff_contact_run :
  fst (_probing_backoff bench (idle_at contact_at 1) probing_down_moving)
  = STAT_EAGAIN /\
  probe_state
    (cm (snd (_probing_backoff bench (idle_at contact_at 1) probing_down_moving)))
  = PROBE_SUCCEEDED /\
  func
    (pb (snd (_probing_backoff bench (idle_at contact_at 1) probing_down_moving)))
  = Some F_probing_finish /\
  trace (snd (_probing_backoff bench (idle_at contact_at 1) probing_down_moving))
  = trace probing_down_moving ++
    [ gpio_read_input_ev (probe_input (pb probing_down_moving))
        (gpio_input (idle_at contact_at 1) (probe_input (pb probing_down_moving)));
      cm_queue_flush_ev;
      cm_straight_feed_ev
        (kn_forward_kinematics bench
           (en_get_encoder_snapshot_vector (idle_at contact_at 1)))
        (flags (pb probing_down_moving)) ].
Proof.
  apply (proj1 (probing_backoff_contact_position bench (idle_at contact_at 1)
                  probing_down_moving)).
  vm_compute. discriminate.
Defined.

(** C7 on a pending probe polled while the runtime is busy. *)
Lemma callback_waits_run :
  cm_probing_cycle_callback bench (busy_at origin 0) pending_down
  = Some (STAT_EAGAIN, pending_down).
Proof.
  apply (proj1 (callback_waits_while_runtime_busy bench (busy_at origin 0)
                  pending_down)).
  - right. reflexivity.
  - reflexivity.
Defined.

(** C8 on a cycle where start recorded success and the input reads
    inactive at finish. *)
Lemma probing_finish_rereads_run :
  probe_state (cm (snd (_probing_finish (idle_at origin 0) probing_down_contacted)))
  = PROBE_FAILED.
Proof.
  apply (proj2 (proj2 (probing_finish_rereads_input (idle_at origin 0)
                         probing_down_contacted))).
  - vm_compute. reflexivity.
  - vm_compute. discriminate.
Defined.

(** * Further properties of the cycle *)

(** ** Polling *)

Section Polling.

Variable X : helpers.

Lemma callback_busy e s :
  cm_get_runtime_busy e = true ->
  exists st, cm_probing_cycle_callback X e s = Some (st, s).
Proof.
  intros Hb. unfold cm_probing_cycle_callback. rewrite Hb.
  destruct (negb (cycle_is_probe (cycle_state (cm s)))
            && negb (probe_state_eqb (probe_state (cm s)) PROBE_WAITING));
    eexists; reflexivity.
Qed.

(** X2: polls made while the runtime is busy leave no mark: a sequence of
    polls ends in the same machine (or is undefined alike) as the
    sequence of its idle polls alone. *)
Theorem poll_skips_busy es :
  forall s,
    option_map snd (poll X es s)
    = option_map snd (poll X (filter idle es) s).
Proof.
  induction es as [|e rest IH]; intros s; [reflexivity|].
  cbn [filter]. unfold idle at 1.
  destruct (cm_get_runtime_busy e) eqn:Hb; cbn [negb].
  - destruct (callback_busy e s Hb) as [st Hst].
    cbn [poll]. rewrite Hst, <- IH.
    destruct (poll X rest s) as [[sts s']|]; reflexivity.
  - cbn [poll].
    destruct (cm_probing_cycle_callback X e s) as [[st s1]|]; [|reflexivity].
    specialize (IH s1).
    destruct (poll X rest s1) as [[sts s']|],
             (poll X (filter idle rest) s1) as [[sts' s'']|];
      cbn in *; congruence.
Qed.

(** X3: outside a probe cycle (the cycle state is not probe and no probe
    is waiting) every poll returns no-op and changes nothing, however
    many polls are made and even with the dispatch vector null. *)
Theorem poll_outside_cycle es s :
  cycle_state (cm s) <> CYCLE_PROBE ->
  probe_state (cm s) <> PROBE_WAITING ->
  poll X es s = Some (repeat STAT_NOOP (List.length es), s).
Proof.
  intros Hc Hp.
  assert (H : forall e, cm_probing_cycle_callback X e s = Some (STAT_NOOP, s)).
  { intros e. unfold cm_probing_cycle_callback.
    destruct (cycle_state (cm s)); try contradiction;
      destruct (probe_state (cm s)); try contradiction; reflexivity. }
  induction es as [|e rest IH]; [reflexivity|].
  cbn [poll]. rewrite H, IH. reflexivity.
Qed.

End Polling.

(** ** Initialization, check by check *)

Section InitChecks.

Variable X : helpers.
Variable pbP : pbProbingSingleton -> Prop.
Variable ok : event -> Prop.
Variable tr0 : list event.

Hypothesis pbP_saved :
  forall p p',
    probe_input p' = probe_input p -> target p' = target p ->
    flags p' = flags p -> pbP p -> pbP p'.
Hypothesis ok_setup : forall ev, is_setup ev = true -> ok ev.

Lemma for_axis_rotary (body : nat -> M unit) :
  for_axis AXIS_A AXES body
  = (body AXIS_A ;; body AXIS_B ;; body AXIS_C ;; ret tt).
Proof. reflexivity. Qed.

Lemma hoare_skip {A : Type} (P : machine -> Prop) (x : A) :
  hoare P (ret x) (fun _ => P).
Proof. intros s H. exact H. Qed.

Lemma inv_setup_call (f : cmSingleton -> cmSingleton) (ev : event) :
  is_setup ev = true ->
  hoare (inv pbP ok tr0) (modify_cm f ;; emit ev) (fun _ => inv pbP ok tr0).
Proof.
  intros H. eapply hoare_bind; [apply inv_modify_cm|].
  intros ?. apply inv_emit, ok_setup, H.
Qed.

(** [_probing_init] with an assertion of its own after each of its four
    checks: the statements before the checks keep the invariant, the
    travel check leads to [J0], the checks of A, B and C to [J1], [J2]
    and [J3], the last statements to [probe_armed]. *)
Lemma probing_init_checks e (J0 J1 J2 J3 : machine -> Prop)
      (Q : stat_t -> machine -> Prop) :
  (forall tgt,
     hoare (fun s => inv pbP ok tr0 s /\ tgt = target (pb s))
           (when (Qltb (get_axis_vector_length X (cm_get_absolute_position e) tgt)
                       MINIMUM_PROBE_TRAVEL)
                 (_probing_error_exit X e (-2) ;; ret tt))
           (fun _ => J0)) ->
  (forall flag,
     hoare (fun s => J0 s /\ flag = flags (pb s) AXIS_A)
           (when (fp_TRUE X flag)
                 (_probing_error_exit X e (Z.of_nat AXIS_A) ;; ret tt))
           (fun _ => J1)) ->
  (forall flag,
     hoare (fun s => J1 s /\ flag = flags (pb s) AXIS_B)
           (when (fp_TRUE X flag)
                 (_probing_error_exit X e (Z.of_nat AXIS_B) ;; ret tt))
           (fun _ => J2)) ->
  (forall flag,
     hoare (fun s => J2 s /\ flag = flags (pb s) AXIS_C)
           (when (fp_TRUE X flag)
                 (_probing_error_exit X e (Z.of_nat AXIS_C) ;; ret tt))
           (fun _ => J3)) ->
  (forall s, J3 s -> Q STAT_EAGAIN (probe_armed s)) ->
  hoare (inv pbP ok tr0) (_probing_init X e) Q.
Proof.
  intros Htravel HA HB HC HQ. unfold _probing_init.
  do 3 (eapply hoare_bind; [apply inv_modify_cm | intros ?]).
  eapply hoare_bind; [apply hoare_reads | intros coord_system].
  eapply hoare_bind;
    [apply inv_modify_pb; intros p; apply pbP_saved; reflexivity
    | intros ?].
  eapply hoare_bind; [apply hoare_reads | intros distance_mode].
  eapply hoare_bind;
    [apply inv_modify_pb; intros p; apply pbP_saved; reflexivity
    | intros ?].
  eapply hoare_bind; [apply inv_setup_call; reflexivity | intros ?].
  eapply hoare_bind; [apply inv_setup_call; reflexivity | intros ?].
  eapply hoare_bind.
  { apply hoare_for_axis. intros axis.
    eapply hoare_bind; [apply hoare_reads | intros jerk].
    eapply hoare_bind;
      [apply inv_modify_pb; intros p; apply pbP_saved; reflexivity
      | intros ?].
    eapply hoare_bind; [apply hoare_reads | intros high].
    apply inv_setup_call. reflexivity. }
  intros ?.
  eapply hoare_bind; [apply hoare_reads_value | intros tgt].
  eapply hoare_bind; [apply Htravel | intros ?].
  rewrite for_axis_rotary.
  eapply hoare_bind.
  { eapply hoare_bind;
      [eapply hoare_bind; [apply hoare_reads_value | intros flag; apply HA]
      | intros ?].
    eapply hoare_bind;
      [eapply hoare_bind; [apply hoare_reads_value | intros flag; apply HB]
      | intros ?].
    eapply hoare_bind;
      [eapply hoare_bind; [apply hoare_reads_value | intros flag; apply HC]
      | intros ?].
    apply hoare_skip. }
  intros ? s Hs.
  replace (fst _) with STAT_EAGAIN by reflexivity.
  replace (snd _) with (probe_armed s).
  - apply HQ, Hs.
  - unfold probe_armed, init_arming_calls. run_cycle.
    do 1 f_equal. trace_eq.
Qed.

End InitChecks.

Section InitDiagnostics.

Variable X : helpers.

Lemma messages_of_app (tr1 tr2 : list event) :
  messages_of (tr1 ++ tr2) = messages_of tr1 ++ messages_of tr2.
Proof. unfold messages_of. apply flat_map_app. Qed.

Lemma messages_of_quiet (evs : list event) :
  Forall no_message evs -> messages_of evs = [].
Proof.
  induction 1 as [|ev evs Hev _ IH]; [reflexivity|].
  change (ev :: evs) with ([ev] ++ evs).
  rewrite messages_of_app, IH, app_nil_r. exact Hev.
Qed.

Lemma setup_no_message (ev : event) : is_setup ev = true -> no_message ev.
Proof. destruct ev; cbn; intros H; try discriminate H; reflexivity. Qed.

Lemma queued_error_check s0 msgs (c : bool) e axis :
  hoare (queued s0 msgs)
        (when c (_probing_error_exit X e axis ;; ret tt))
        (fun _ => queued s0 (msgs ++ if c then [error_exit_message X axis]
                                     else [])).
Proof.
  intros s1 [Hreq (evs & Ht & Hm)]. destruct c.
  - rewrite when_true, dropped_run. split.
    + rewrite probing_error_exit_pb. exact Hreq.
    + exists (evs ++ error_exit_report X axis ++ cleanup_calls e s1). split.
      * rewrite probing_error_exit_trace, Ht. symmetry. apply app_assoc.
      * rewrite !messages_of_app, Hm. reflexivity.
  - cbn [when ret snd]. rewrite app_nil_r. split; [exact Hreq|].
    exists evs. split; assumption.
Qed.

Lemma probing_init_queued e s :
  fst (_probing_init X e s) = STAT_EAGAIN /\
  queued s (map (error_exit_message X) (init_error_exits X e s))
         (snd (_probing_init X e s)).
Proof.
  set (m0 := if probe_travel_too_short X e s
             then [error_exit_message X (-2)] else []).
  set (mA := if fp_TRUE X (flags (pb s) AXIS_A)
             then [error_exit_message X (Z.of_nat AXIS_A)] else []).
  set (mB := if fp_TRUE X (flags (pb s) AXIS_B)
             then [error_exit_message X (Z.of_nat AXIS_B)] else []).
  set (mC := if fp_TRUE X (flags (pb s) AXIS_C)
             then [error_exit_message X (Z.of_nat AXIS_C)] else []).
  assert (Hmsgs : map (error_exit_message X) (init_error_exits X e s)
                  = ((([] ++ m0) ++ mA) ++ mB) ++ mC).
  { unfold init_error_exits, rotary_error_exit, m0, mA, mB, mC.
    destruct (probe_travel_too_short X e s),
      (fp_TRUE X (flags (pb s) AXIS_A)), (fp_TRUE X (flags (pb s) AXIS_B)),
      (fp_TRUE X (flags (pb s) AXIS_C)); reflexivity. }
  rewrite Hmsgs.
  apply (probing_init_checks X (same_request s) no_message (trace s)
           (fun p p' _ Ht Hf H =>
              conj (eq_trans Ht (proj1 H)) (eq_trans Hf (proj2 H)))
           setup_no_message e
           (queued s ([] ++ m0)) (queued s (([] ++ m0) ++ mA))
           (queued s ((([] ++ m0) ++ mA) ++ mB))
           (queued s (((([] ++ m0) ++ mA) ++ mB) ++ mC))
           (fun st s' =>
              st = STAT_EAGAIN /\
              queued s (((([] ++ m0) ++ mA) ++ mB) ++ mC) s')).
  - intros tgt s1 [[Hreq (evs & Ht & Hq)] Htgt].
    assert (Hc : Qltb (get_axis_vector_length X (cm_get_absolute_position e) tgt)
                      MINIMUM_PROBE_TRAVEL = probe_travel_too_short X e s)
      by (unfold probe_travel_too_short; rewrite Htgt, (proj1 Hreq); reflexivity).
    rewrite Hc. apply queued_error_check. split; [exact Hreq|].
    exists evs. split; [exact Ht | apply messages_of_quiet, Hq].
  - intros flag s1 [Hq Hflag].
    assert (Hc : fp_TRUE X flag = fp_TRUE X (flags (pb s) AXIS_A))
      by (rewrite Hflag, (proj2 (proj1 Hq)); reflexivity).
    rewrite Hc. apply queued_error_check, Hq.
  - intros flag s1 [Hq Hflag].
    assert (Hc : fp_TRUE X flag = fp_TRUE X (flags (pb s) AXIS_B))
      by (rewrite Hflag, (proj2 (proj1 Hq)); reflexivity).
    rewrite Hc. apply queued_error_check, Hq.
  - intros flag s1 [Hq Hflag].
    assert (Hc : fp_TRUE X flag = fp_TRUE X (flags (pb s) AXIS_C))
      by (rewrite Hflag, (proj2 (proj1 Hq)); reflexivity).
    rewrite Hc. apply queued_error_check, Hq.
  - intros s1 [Hreq (evs & Ht & Hm)]. split; [reflexivity|]. split.
    + exact Hreq.
    + exists (evs ++ init_arming_calls). split.
      * cbn [probe_armed trace]. rewrite Ht. symmetry. apply app_assoc.
      * rewrite messages_of_app, Hm. apply app_nil_r.
  - split; [split; reflexivity | apply grown_refl].
Qed.

(** X7: the diagnostics [_probing_init] queues are, in this order, the
    invalid-destination message if the travel is below the minimum and
    one axis message for each of A, B, C whose flag is set, and no other;
    whichever of them it queues, it returns the in-progress status. *)
Theorem probing_init_diagnostics e s :
  fst (_probing_init X e s) = STAT_EAGAIN /\
  exists evs,
    trace (snd (_probing_init X e s)) = trace s ++ evs /\
    messages_of evs = map (error_exit_message X) (init_error_exits X e s).
Proof.
  destruct (probing_init_queued e s) as (Hst & _ & evs & Ht & Hm).
  split; [exact Hst|]. exists evs. split; assumption.
Qed.

End InitDiagnostics.

(** ** The dispatch vector and the statuses *)

Section Dispatch.

Variable X : helpers.

Lemma state_function_status f e s :
  fst (state_function X f e s) = STAT_EAGAIN \/
  (f = F_probing_finalize_exit /\ fst (state_function X f e s) = STAT_OK).
Proof.
  destruct f; cbn [state_function].
  - left. apply probing_init_status.
  - left.
    destruct (Z.eq_dec (gpio_input e (probe_input (pb s))) INPUT_INACTIVE) as [H|H].
    + rewrite probing_start_open by exact H. reflexivity.
    + rewrite probing_start_contacted by exact H. reflexivity.
  - left.
    destruct (Z.eq_dec (gpio_input e (probe_input (pb s))) INPUT_INACTIVE) as [H|H].
    + rewrite probing_backoff_open by exact H. reflexivity.
    + rewrite probing_backoff_contacted by exact H. reflexivity.
  - left. rewrite probing_finish_run. reflexivity.
  - right. split; [reflexivity | apply probing_finalize_exit_status].
Qed.

(** X1: whatever the machine and the environment, a call of the callback
    returns no-op, in-progress or ok, and ok only from
    [_probing_finalize_exit]: the probe-cycle-failed status of
    [_probing_error_exit] never reaches the controller. *)
Theorem callback_never_reports_failure e s st s' :
  cm_probing_cycle_callback X e s = Some (st, s') ->
  cycle_status st /\
  st <> STAT_PROBE_CYCLE_FAILED /\
  (st = STAT_OK -> func (pb s) = Some F_probing_finalize_exit).
Proof.
  intros H. unfold cycle_status.
  pose proof (callback_outcomes X e s) as Ho. rewrite H in Ho.
  inversion Ho as [ | | f Hf Hb Hs | ]; subst.
  - repeat split; auto; discriminate.
  - repeat split; auto; discriminate.
  - destruct (state_function_status f e s) as [Hst | [-> Hst]];
      first [rewrite Hs in Hst | rewrite <- Hs in Hst];
      cbn [fst] in Hst; subst st;
      repeat split; auto; try discriminate.
Qed.

Lemma state_function_advances f e s :
  func (pb s) = Some f ->
  exists f',
    func (pb (snd (state_function X f e s))) = Some f' /\
    (func_rank f <= func_rank f')%nat /\
    (f <> F_probing_finalize_exit -> (func_rank f < func_rank f')%nat).
Proof.
  intros Hf. destruct f; cbn [state_function].
  - exists F_probing_start. split; [apply probing_init_armed|].
    cbn. split; intros; lia.
  - destruct (Z.eq_dec (gpio_input e (probe_input (pb s))) INPUT_INACTIVE) as [H|H].
    + rewrite probing_start_open by exact H.
      exists F_probing_backoff. cbn. repeat split; intros; lia.
    + rewrite probing_start_contacted by exact H.
      exists F_probing_finish. cbn. repeat split; intros; lia.
  - exists F_probing_finish.
    destruct (Z.eq_dec (gpio_input e (probe_input (pb s))) INPUT_INACTIVE) as [H|H].
    + rewrite probing_backoff_open by exact H. cbn. repeat split; intros; lia.
    + rewrite probing_backoff_contacted by exact H.
      cbn. repeat split; intros; lia.
  - exists F_probing_finalize_exit. rewrite probing_finish_run.
    cbn. repeat split; intros; lia.
  - exists F_probing_finalize_exit. rewrite probing_finalize_exit_pb.
    split; [exact Hf|]. split; [lia | intros H; contradiction].
Qed.

Lemma state_function_frame f e s :
  f <> F_probing_init ->
  pb_frame (pb s) (pb (snd (state_function X f e s))).
Proof.
  intros Hf. unfold pb_frame. destruct f; cbn [state_function].
  - contradiction.
  - destruct (Z.eq_dec (gpio_input e (probe_input (pb s))) INPUT_INACTIVE) as [H|H].
    + rewrite probing_start_open by exact H. repeat split.
    + rewrite probing_start_contacted by exact H. repeat split.
  - destruct (Z.eq_dec (gpio_input e (probe_input (pb s))) INPUT_INACTIVE) as [H|H].
    + rewrite probing_backoff_open by exact H. repeat split.
    + rewrite probing_backoff_contacted by exact H. repeat split.
  - rewrite probing_finish_run. repeat split.
  - rewrite probing_finalize_exit_pb. repeat split.
Qed.

Lemma state_function_request f e s :
  same_request s (pb (snd (state_function X f e s))).
Proof.
  destruct (pb_state_function_eq_dec f F_probing_init) as [-> | Hf].
  - cbn [state_function]. apply probing_init_queued.
  - destruct (state_function_frame f e s Hf) as (_ & _ & _ & _ & Ht & Hfl).
    split; assumption.
Qed.

(** X4: the cycle never calls through a null dispatch vector once a
    function is bound, and the vector only moves forward, in the order
    init, start, backoff, finish, finalize_exit: any sequence of polls
    from a machine with a bound function is defined and ends with a
    function bound that is not earlier in that order; and every state
    function but [_probing_finalize_exit] binds a strictly later one. *)
Theorem dispatch_vector_advances f s es :
  func (pb s) = Some f ->
  (exists sts s' f',
     poll X es s = Some (sts, s') /\
     List.length sts = List.length es /\
     func (pb s') = Some f' /\
     (func_rank f <= func_rank f')%nat) /\
  (forall e,
     f <> F_probing_finalize_exit ->
     exists f',
       func (pb (snd (state_function X f e s))) = Some f' /\
       (func_rank f < func_rank f')%nat).
Proof.
  intros Hf. split.
  - revert f s Hf. induction es as [|e rest IH]; intros f s Hf; cbn [poll].
    + exists [], s, f. repeat split; auto.
    + destruct (callback_outcomes X e s) as [ | | f0 Hf0 Hb | Hnull Hb].
      * destruct (IH f s Hf) as (sts & s' & f' & -> & Hl & Hf' & Hr).
        exists (STAT_NOOP :: sts), s', f'. cbn. repeat split; auto.
      * destruct (IH f s Hf) as (sts & s' & f' & -> & Hl & Hf' & Hr).
        exists (STAT_EAGAIN :: sts), s', f'. cbn. repeat split; auto.
      * assert (f0 = f) by congruence. subst f0.
        destruct (state_function_advances f e s Hf) as (f1 & Hf1 & Hr1 & _).
        destruct (state_function X f e s) as [st s1]. cbn [fst snd] in *.
        destruct (IH f1 s1 Hf1) as (sts & s' & f' & -> & Hl & Hf' & Hr).
        exists (st :: sts), s', f'. cbn. repeat split; auto. lia.
      * congruence.
  - intros e Hne.
    destruct (state_function_advances f e s Hf) as (f1 & Hf1 & _ & Hr).
    exists f1. split; [exact Hf1 | apply Hr, Hne].
Qed.

(** X5: no sequence of polls changes the probe request: the target and
    the axis flags stay those [cm_straight_probe] stored. *)
Theorem poll_keeps_request es :
  forall s sts s',
    poll X es s = Some (sts, s') ->
    target (pb s') = target (pb s) /\ flags (pb s') = flags (pb s).
Proof.
  induction es as [|e rest IH]; intros s sts s' H; cbn [poll] in H.
  - injection H as _ <-. split; reflexivity.
  - destruct (callback_outcomes X e s) as [ | | f Hf Hb | Hnull Hb];
      try discriminate H.
    + destruct (poll X rest s) as [[sts0 s0]|] eqn:Hp; [|discriminate H].
      injection H as _ <-. apply (IH _ _ _ Hp).
    + destruct (poll X rest s) as [[sts0 s0]|] eqn:Hp; [|discriminate H].
      injection H as _ <-. apply (IH _ _ _ Hp).
    + pose proof (state_function_request f e s) as [Ht Hfl].
      destruct (state_function X f e s) as [st s1]. cbn [fst snd] in *.
      destruct (poll X rest s1) as [[sts0 s0]|] eqn:Hp; [|discriminate H].
      injection H as _ <-.
      destruct (IH _ _ _ Hp) as [Ht' Hfl']. split; congruence.
Qed.

Lemma poll_frame f es :
  forall s sts s',
    func (pb s) = Some f ->
    f <> F_probing_init ->
    poll X es s = Some (sts, s') ->
    pb_frame (pb s) (pb s').
Proof.
  revert f. induction es as [|e rest IH]; intros f s sts s' Hf Hne H;
    cbn [poll] in H.
  - injection H as _ <-. unfold pb_frame. repeat split.
  - destruct (callback_outcomes X e s) as [ | | f0 Hf0 Hb | Hnull Hb];
      try discriminate H.
    + destruct (poll X rest s) as [[sts0 s0]|] eqn:Hp; [|discriminate H].
      injection H as _ <-. apply (IH f _ _ _ Hf Hne Hp).
    + destruct (poll X rest s) as [[sts0 s0]|] eqn:Hp; [|discriminate H].
      injection H as _ <-. apply (IH f _ _ _ Hf Hne Hp).
    + assert (f0 = f) by congruence. subst f0.
      pose proof (state_function_frame f e s Hne) as Hfr.
      destruct (state_function_advances f e s Hf) as (f1 & Hf1 & Hr1 & _).
      assert (Hne1 : f1 <> F_probing_init).
      { intros ->. destruct f; cbn in Hr1; try lia. contradiction. }
      destruct (state_function X f e s) as [st s1]. cbn [fst snd] in *.
      destruct (poll X rest s1) as [[sts0 s0]|] eqn:Hp; [|discriminate H].
      injection H as _ <-.
      pose proof (IH f1 _ _ _ Hf1 Hne1 Hp) as Hfr'.
      unfold pb_frame in *.
      destruct Hfr as (A1 & A2 & A3 & A4 & A5 & A6).
      destruct Hfr' as (B1 & B2 & B3 & B4 & B5 & B6).
      repeat split; congruence.
Qed.

(** X6: once initialization is over the cycle changes nothing of the
    probing singleton but the dispatch vector: after any sequence of
    polls from a machine whose bound function is not [_probing_init], the
    probe input, the saved distance mode, coordinate system and jerk, the
    target and the flags are as before. *)
Theorem poll_after_init_keeps_singleton f es :
  forall s sts s',
    func (pb s) = Some f ->
    f <> F_probing_init ->
    poll X es s = Some (sts, s') ->
    pb_frame (pb s) (pb s').
Proof. exact (poll_frame f es). Qed.

End Dispatch.

(** ** Saving and restoring the settings *)

Section SaveRestore.

Variable X : helpers.

Lemma when_false (m : M unit) : when false m = ret tt.
Proof. reflexivity. Qed.

Lemma hoare_snd {A : Type} (P : machine -> Prop) (m : M A)
      (Q : machine -> Prop) (s : machine) :
  hoare P m (fun _ => Q) -> P s -> Q (snd (m s)).
Proof. intros H HP. apply (H s HP). Qed.

Lemma for_each_run (body : nat -> M unit) (step : machine -> nat -> machine)
      (axes : list nat) :
  (forall axis s, body axis s = (tt, step s axis)) ->
  forall s, for_each axes body s = (tt, fold_left step axes s).
Proof.
  intros H. induction axes as [|axis rest IH]; intros s; [reflexivity|].
  cbn [for_each fold_left]. rewrite (bind_step _ _ _ _ _ (H axis s)). apply IH.
Qed.

Lemma jerk_swap_run axis s :
  (jerk <- cm_get_axis_jerk axis ;;
   modify_pb (fun p => set_saved_jerk (aset (saved_jerk p) axis jerk) p) ;;
   high <- reads (fun s => jerk_high (a (cm s) axis)) ;;
   cm_set_axis_jerk axis high) s
  = (tt, jerk_swapped s axis).
Proof. run_cycle. reflexivity. Qed.

(** [_probing_init] up to its checks is [probe_setup]. *)
Lemma probing_init_setup e s :
  _probing_init X e s =
  (tgt <- reads (fun s => target (pb s)) ;;
   when (Qltb (get_axis_vector_length X (cm_get_absolute_position e) tgt)
              MINIMUM_PROBE_TRAVEL)
        (_probing_error_exit X e (-2) ;; ret tt) ;;
   for_axis AXIS_A AXES (fun axis =>
     flag <- reads (fun s => flags (pb s) axis) ;;
     when (fp_TRUE X flag) (_probing_error_exit X e (Z.of_nat axis) ;; ret tt)) ;;
   modify_pb (set_probe_input 5) ;;
   input <- reads (fun s => probe_input (pb s)) ;;
   gpio_set_probing_mode input true ;;
   cm_spindle_optional_pause true ;;
   _set_pb_func F_probing_start) (probe_setup s).
Proof.
  unfold _probing_init.
  do 9 (erewrite bind_step by (run_cycle; reflexivity)).
  erewrite bind_step by (apply for_each_run, jerk_swap_run).
  match goal with
  | |- _ (fold_left jerk_swapped ?l ?S) = _ =>
      replace (fold_left jerk_swapped l S) with (probe_setup s)
        by (unfold probe_setup; f_equal; cbn; f_equal; trace_eq)
  end.
  reflexivity.
Qed.

Lemma probe_setup_pb s :
  probe_input (pb (probe_setup s)) = probe_input (pb s) /\
  target (pb (probe_setup s)) = target (pb s) /\
  flags (pb (probe_setup s)) = flags (pb s) /\
  saved_coord_system (pb (probe_setup s)) = gm_coord_system (cm s) /\
  saved_distance_mode (pb (probe_setup s)) = gm_distance_mode (cm s) /\
  (forall axis, (axis < AXES)%nat ->
     saved_jerk (pb (probe_setup s)) axis = jerk_max (a (cm s) axis)).
Proof. do 5 (split; [reflexivity|]). each_axis. Qed.

Lemma probe_setup_trace s :
  exists evs,
    trace (probe_setup s) = trace s ++ evs /\
    straight_feeds evs = [] /\ messages_of evs = [].
Proof.
  eexists. split; [|split].
  - unfold probe_setup, jerk_swapped. cbn. trace_eq.
  - reflexivity.
  - reflexivity.
Qed.

Lemma rotary_checks_skipped e s :
  fp_TRUE X (flags (pb s) AXIS_A) = false ->
  fp_TRUE X (flags (pb s) AXIS_B) = false ->
  fp_TRUE X (flags (pb s) AXIS_C) = false ->
  for_axis AXIS_A AXES (fun axis =>
    flag <- reads (fun s => flags (pb s) axis) ;;
    when (fp_TRUE X flag) (_probing_error_exit X e (Z.of_nat axis) ;; ret tt)) s
  = (tt, s).
Proof.
  intros HA HB HC. rewrite for_axis_rotary.
  erewrite bind_step by (erewrite bind_step by reflexivity; rewrite HA; reflexivity).
  erewrite bind_step by (erewrite bind_step by reflexivity; rewrite HB; reflexivity).
  erewrite bind_step by (erewrite bind_step by reflexivity; rewrite HC; reflexivity).
  reflexivity.
Qed.

(** With a travel of the minimum at least and no rotary axis flagged,
    [_probing_init] is the setup followed by the arming of the probe. *)
Lemma probing_init_valid e s :
  probe_travel_too_short X e s = false ->
  fp_TRUE X (flags (pb s) AXIS_A) = false ->
  fp_TRUE X (flags (pb s) AXIS_B) = false ->
  fp_TRUE X (flags (pb s) AXIS_C) = false ->
  _probing_init X e s = (STAT_EAGAIN, probe_armed (probe_setup s)).
Proof.
  intros Ht HA HB HC. unfold probe_travel_too_short in Ht.
  destruct (probe_setup_pb s) as (_ & Htgt & Hflg & _).
  rewrite probing_init_setup.
  erewrite bind_step by reflexivity.
  rewrite Htgt, Ht, when_false.
  erewrite bind_step by reflexivity.
  erewrite bind_step by (apply rotary_checks_skipped; rewrite Hflg; assumption).
  generalize (probe_setup s). intros s1.
  unfold probe_armed, init_arming_calls.
  run_cycle. do 2 f_equal. trace_eq.
Qed.

Lemma error_exit_keeps_pb e axis (p : pbProbingSingleton) :
  hoare (fun s => pb s = p) (_probing_error_exit X e axis ;; ret tt)
        (fun _ s => pb s = p).
Proof. intros s H. rewrite dropped_run, probing_error_exit_pb. exact H. Qed.

(** Whatever its checks find, [_probing_init] leaves the probing singleton
    of the setup followed by the arming. *)
Lemma probing_init_pb e s :
  pb (snd (_probing_init X e s)) = pb (probe_armed (probe_setup s)).
Proof.
  rewrite probing_init_setup. generalize (probe_setup s). intros s1.
  match goal with
  | |- pb (snd (?m s1)) = _ =>
      apply (hoare_snd (fun s' => pb s' = pb s1) m
               (fun s' => pb s' = pb (probe_armed s1)));
        [|reflexivity]
  end.
  eapply hoare_bind; [apply hoare_reads | intros tgt].
  eapply hoare_bind; [apply hoare_when, error_exit_keeps_pb | intros ?].
  eapply hoare_bind.
  { apply hoare_for_axis. intros axis.
    eapply hoare_bind; [apply hoare_reads | intros flag].
    apply hoare_when, error_exit_keeps_pb. }
  intros ? s2 H2. cbv beta.
  unfold probe_armed. run_cycle. rewrite H2. reflexivity.
Qed.

Lemma saved_settings_restored p c0 c :
  settings_as_saved p c ->
  saved_coord_system p = gm_coord_system c0 ->
  saved_distance_mode p = gm_distance_mode c0 ->
  (forall axis, (axis < AXES)%nat -> saved_jerk p axis = jerk_max (a c0 axis)) ->
  same_settings c0 c.
Proof.
  intros (Hj & Hc & Hd) Hc0 Hd0 Hj0. split; [|split]; try congruence.
  intros axis Hax. rewrite Hj, Hj0 by exact Hax. reflexivity.
Qed.

Lemma restored_as_saved e s s' :
  settings_restored e s s' -> settings_as_saved (pb s) (cm s').
Proof. intros (Hj & Hc & Hd & _). split; [|split]; assumption. Qed.

(** The settings saved once [_probing_init] has run, and after any polls
    that follow, are those of the machine before. *)
Lemma poll_keeps_saved e0 es s sts s' :
  poll X es (snd (_probing_init X e0 s)) = Some (sts, s') ->
  saved_coord_system (pb s') = gm_coord_system (cm s) /\
  saved_distance_mode (pb s') = gm_distance_mode (cm s) /\
  (forall axis, (axis < AXES)%nat ->
     saved_jerk (pb s') axis = jerk_max (a (cm s) axis)).
Proof.
  intros Hp.
  assert (Hf : func (pb (snd (_probing_init X e0 s))) = Some F_probing_start)
    by apply probing_init_armed.
  destruct (poll_frame X F_probing_start es _ _ _ Hf ltac:(discriminate) Hp)
    as (_ & Hd & Hc & Hj & _).
  rewrite Hd, Hc, Hj, probing_init_pb.
  destruct (probe_setup_pb s) as (_ & _ & _ & Hc0 & Hd0 & Hj0).
  split; [exact Hc0 | split; [exact Hd0 | exact Hj0]].
Qed.

(** X10: saving and restoring is a round trip.  Whatever [_probing_init]
    finds and however the cycle is polled after it, either exit leaves
    the jerk of every axis, the coordinate system and the distance mode as
    they were before [_probing_init] ran. *)
Theorem probing_settings_round_trip e0 es e s sts s' :
  poll X es (snd (_probing_init X e0 s)) = Some (sts, s') ->
  same_settings (cm s) (cm (snd (_probing_finalize_exit e s'))) /\
  (forall axis,
     same_settings (cm s) (cm (snd (_probing_error_exit X e axis s')))).
Proof.
  intros Hp. destruct (poll_keeps_saved e0 es s sts s' Hp) as (Hc & Hd & Hj).
  split; [|intros axis].
  - apply (saved_settings_restored (pb s')); try assumption.
    apply (restored_as_saved e s'), probing_finalize_exit_restores.
  - apply (saved_settings_restored (pb s')); try assumption.
    apply (restored_as_saved e s'), probing_error_exit_restores.
Qed.

End SaveRestore.

(** ** The report of a probe *)

Section Report.

Lemma prb_report_fields state flg res position :
  (forall axis, (axis < AXES)%nat -> res axis = position axis) ->
  prb_report state flg res =
  printf_prb_e_ev (probe_state_int state)
  :: prb_fields flg position ++ [printf_prb_close_ev].
Proof.
  intros H. unfold prb_report, prb_field, prb_fields.
  rewrite (H AXIS_X), (H AXIS_Y), (H AXIS_Z), (H AXIS_A), (H AXIS_B), (H AXIS_C)
    by (unfold AXES, AXIS_X, AXIS_Y, AXIS_Z, AXIS_A, AXIS_B, AXIS_C; lia).
  unfold AXES, AXIS_X, AXIS_Y, AXIS_Z, AXIS_A, AXIS_B, AXIS_C.
  cbn [seq filter].
  destruct (flg 0%nat), (flg 1%nat), (flg 2%nat),
    (flg 3%nat), (flg 4%nat), (flg 5%nat); reflexivity.
Qed.

Lemma prb_report_silent state flg res :
  straight_feeds (prb_report state flg res) = [] /\
  messages_of (prb_report state flg res) = [].
Proof.
  unfold prb_report, prb_field.
  destruct (flg AXIS_X), (flg AXIS_Y), (flg AXIS_Z),
    (flg AXIS_A), (flg AXIS_B), (flg AXIS_C); split; reflexivity.
Qed.

(** X9: [_probing_finish] stores the position of all six axes, flagged or
    not, and prints after the result flag one field for each axis whose
    flag is set, rotary axes included, in the order x, y, z, a, b, c, each
    with the position just stored, and nothing for the other axes. *)
Theorem probing_finish_report e s :
  (forall axis, (axis < AXES)%nat ->
     probe_results (cm (snd (_probing_finish e s))) axis
     = cm_get_absolute_position e axis) /\
  trace (snd (_probing_finish e s)) =
  trace s ++
  [ probe_read e s;
    printf_prb_e_ev (probe_state_int (finish_probe_state e s)) ]
  ++ prb_fields (flags (pb s)) (cm_get_absolute_position e)
  ++ [printf_prb_close_ev].
Proof.
  rewrite probing_finish_run.
  cbn [snd cm trace probe_results set_probe_results].
  split.
  - apply position_stored_axis.
  - rewrite (prb_report_fields _ _ _ (cm_get_absolute_position e))
      by apply position_stored_axis.
    reflexivity.
Qed.

End Report.

(** ** Cycles with a probe move *)

Section Cycles.

Variable X : helpers.

Lemma probing_backoff_run e s :
  _probing_backoff X e s =
  (STAT_EAGAIN,
   {| pb := set_func (Some F_probing_finish) (pb s);
      cm := set_probe_state
              (if gpio_input e (probe_input (pb s)) =? INPUT_INACTIVE
               then PROBE_FAILED else PROBE_SUCCEEDED) (cm s);
      trace := trace s ++
        probe_read e s ::
        (if gpio_input e (probe_input (pb s)) =? INPUT_INACTIVE then []
         else [cm_queue_flush_ev;
               cm_straight_feed_ev
                 (kn_forward_kinematics X (en_get_encoder_snapshot_vector e))
                 (flags (pb s))]) |}).
Proof.
  destruct (Z.eq_dec (gpio_input e (probe_input (pb s))) INPUT_INACTIVE) as [H|H].
  - rewrite probing_backoff_open by exact H. rewrite H. reflexivity.
  - rewrite probing_backoff_contacted by exact H.
    apply Z.eqb_neq in H. rewrite H. reflexivity.
Qed.

Lemma straight_feeds_app (tr1 tr2 : list event) :
  straight_feeds (tr1 ++ tr2) = straight_feeds tr1 ++ straight_feeds tr2.
Proof. apply filter_app. Qed.

(** The calls of a cycle whose probe move is made, from the read of the
    probe input in [_probing_start] to the end of cleanup. *)
Lemma probe_move_calls e1 e2 e3 e4 s (between : list event) :
  straight_feeds between = backoff_moves X e2 s ->
  messages_of between = [] ->
  straight_feeds
    ([probe_read e1 s; cm_straight_feed_ev (target (pb s)) (flags (pb s))]
     ++ (probe_read e2 s :: between)
     ++ (probe_read e3 s ::
         prb_report (finish_probe_state e3 s) (flags (pb s))
           (position_stored e3 (probe_results (cm s))))
     ++ cleanup_calls e4 s)
  = probe_moves X e2 s /\
  messages_of
    ([probe_read e1 s; cm_straight_feed_ev (target (pb s)) (flags (pb s))]
     ++ (probe_read e2 s :: between)
     ++ (probe_read e3 s ::
         prb_report (finish_probe_state e3 s) (flags (pb s))
           (position_stored e3 (probe_results (cm s))))
     ++ cleanup_calls e4 s)
  = [].
Proof.
  intros Hfeeds Hmsgs.
  destruct (prb_report_silent (finish_probe_state e3 s) (flags (pb s))
              (position_stored e3 (probe_results (cm s)))) as [Hrf Hrm].
  split.
  - change (probe_read e2 s :: between) with ([probe_read e2 s] ++ between).
    change (probe_read e3 s :: ?r) with ([probe_read e3 s] ++ r).
    rewrite !straight_feeds_app, Hfeeds, Hrf. unfold probe_moves.
    cbn. rewrite app_nil_r. reflexivity.
  - change (probe_read e2 s :: between) with ([probe_read e2 s] ++ between).
    change (probe_read e3 s :: ?r) with ([probe_read e3 s] ++ r).
    rewrite !messages_of_app, Hmsgs, Hrm. reflexivity.
Qed.

(** A cycle from [_probing_start] with the input inactive as it runs. *)
Lemma probe_move_cycle_steps s e1 e2 e3 e4 :
  func (pb s) = Some F_probing_start ->
  cycle_state (cm s) = CYCLE_PROBE ->
  cm_get_runtime_busy e1 = false -> cm_get_runtime_busy e2 = false ->
  cm_get_runtime_busy e3 = false -> cm_get_runtime_busy e4 = false ->
  gpio_input e1 (probe_input (pb s)) = INPUT_INACTIVE ->
  exists s' evs,
    poll X [e1; e2; e3; e4] s =
    Some ([STAT_EAGAIN; STAT_EAGAIN; STAT_EAGAIN; STAT_OK], s') /\
    probe_state (cm s') = finish_probe_state e3 s /\
    (forall axis, (axis < AXES)%nat ->
       probe_results (cm s') axis = cm_get_absolute_position e3 axis) /\
    settings_as_saved (pb s) (cm s') /\
    trace s' = trace s ++ evs /\
    straight_feeds evs = probe_moves X e2 s /\
    messages_of evs = [].
Proof.
  intros Hf Hc Hb1 Hb2 Hb3 Hb4 H1.
  pose proof (probing_start_open e1 s H1) as E1.
  set (s1 := snd (_probing_start e1 s)).
  assert (Hs1 : _probing_start e1 s = (STAT_EAGAIN, s1))
    by (unfold s1; rewrite E1; reflexivity).
  assert (P1 : pb s1 = set_func (Some F_probing_backoff) (pb s) /\
               cm s1 = cm s /\
               trace s1 = trace s ++ [probe_read e1 s;
                 cm_straight_feed_ev (target (pb s)) (flags (pb s))])
    by (unfold s1; rewrite E1; repeat split).
  destruct P1 as (Pb1 & Cm1 & Tr1). clearbody s1. clear E1.
  pose proof (probing_backoff_run e2 s1) as E2.
  set (s2 := snd (_probing_backoff X e2 s1)).
  set (contact := gpio_input e2 (probe_input (pb s1)) =? INPUT_INACTIVE) in E2.
  set (between := if contact then []
                  else [cm_queue_flush_ev;
                        cm_straight_feed_ev
                          (kn_forward_kinematics X
                             (en_get_encoder_snapshot_vector e2))
                          (flags (pb s1))]) in E2.
  assert (Hs2 : _probing_backoff X e2 s1 = (STAT_EAGAIN, s2))
    by (unfold s2; rewrite E2; reflexivity).
  assert (P2 : pb s2 = set_func (Some F_probing_finish) (pb s1) /\
               cycle_state (cm s2) = cycle_state (cm s1) /\
               probe_results (cm s2) = probe_results (cm s1) /\
               trace s2 = trace s1 ++ probe_read e2 s1 :: between)
    by (unfold s2; rewrite E2; repeat split).
  destruct P2 as (Pb2 & Cy2 & Re2 & Tr2). clearbody s2. clear E2.
  assert (Hbetween : straight_feeds between = backoff_moves X e2 s /\
                     messages_of between = []).
  { unfold between, contact, backoff_moves. rewrite Pb1.
    cbn [probe_input flags set_func].
    destruct (gpio_input e2 (probe_input (pb s)) =? INPUT_INACTIVE);
      split; reflexivity. }
  clearbody between. clear contact.
  pose proof (probing_finish_run e3 s2) as E3.
  set (s3 := snd (_probing_finish e3 s2)).
  assert (Hs3 : _probing_finish e3 s2 = (STAT_EAGAIN, s3))
    by (unfold s3; rewrite E3; reflexivity).
  assert (P3 : pb s3 = set_func (Some F_probing_finalize_exit) (pb s2) /\
               cm s3 = set_probe_results
                         (position_stored e3 (probe_results (cm s2)))
                         (set_probe_state (finish_probe_state e3 s2) (cm s2)) /\
               trace s3 = trace s2 ++ probe_read e3 s2 ::
                 prb_report (finish_probe_state e3 s2) (flags (pb s2))
                   (position_stored e3 (probe_results (cm s2))))
    by (unfold s3; rewrite E3; repeat split).
  destruct P3 as (Pb3 & Cm3 & Tr3). clearbody s3. clear E3.
  assert (Hfin : finish_probe_state e3 s2 = finish_probe_state e3 s)
    by (unfold finish_probe_state; rewrite Pb2, Pb1; reflexivity).
  rewrite Hfin in *.
  destruct (probe_move_calls e1 e2 e3 e4 s between) as [Hfeeds Hmsgs];
    [apply Hbetween | apply Hbetween |].
  exists (snd (_probing_finalize_exit e4 s3)).
  eexists.
  split; [|split; [|split; [|split; [|split; [|split]]]]];
    [ | | | | | exact Hfeeds | exact Hmsgs].
  - rewrite (poll_step X e1 _ s STAT_EAGAIN s1)
      by (rewrite (callback_runs X e1 s F_probing_start) by assumption;
          cbn [state_function]; rewrite Hs1; reflexivity).
    rewrite (poll_step X e2 _ s1 STAT_EAGAIN s2)
      by (rewrite (callback_runs X e2 s1 F_probing_backoff);
          [ cbn [state_function]; rewrite Hs2; reflexivity
          | rewrite Cm1; exact Hc | exact Hb2 | rewrite Pb1; reflexivity ]).
    rewrite (poll_step X e3 _ s2 STAT_EAGAIN s3)
      by (rewrite (callback_runs X e3 s2 F_probing_finish);
          [ cbn [state_function]; rewrite Hs3; reflexivity
          | rewrite Cy2, Cm1; exact Hc | exact Hb3 | rewrite Pb2; reflexivity ]).
    rewrite (poll_step X e4 _ s3 STAT_OK (snd (_probing_finalize_exit e4 s3)))
      by (rewrite (callback_runs X e4 s3 F_probing_finalize_exit);
          [ cbn [state_function];
            rewrite probing_finalize_exit_eq at 1; reflexivity
          | rewrite Cm3; cbn; rewrite Cy2, Cm1; exact Hc | exact Hb4
          | rewrite Pb3; reflexivity ]).
    reflexivity.
  - destruct (probing_finalize_exit_cycle_off e4 s3) as (_ & -> & _).
    rewrite Cm3. reflexivity.
  - intros axis Hax.
    destruct (probing_finalize_exit_cycle_off e4 s3) as (_ & _ & ->).
    rewrite Cm3. cbn [probe_results set_probe_results].
    apply position_stored_axis, Hax.
  - replace (pb s) with (set_func (Some F_probing_start) (pb s3)).
    + apply (restored_as_saved e4 s3 _
               (probing_finalize_exit_restores e4 s3)).
    + rewrite Pb3, Pb2, Pb1. destruct (pb s); cbn in *. rewrite Hf. reflexivity.
  - rewrite probing_finalize_exit_trace, Tr3, Tr2, Tr1.
    unfold cleanup_calls, probe_read.
    rewrite Re2, Pb3, Pb2, Pb1, Cm1.
    cbn [probe_input flags set_func saved_coord_system saved_distance_mode].
    generalize (prb_report (finish_probe_state e3 s) (flags (pb s))
                  (position_stored e3 (probe_results (cm s)))).
    intros report. trace_eq.
Qed.

(** X8: a cycle from [_probing_start] with the runtime idle and the input
    inactive as start runs takes four polls, in-progress three times and
    then ok.  It makes the probe move and, if and only if the input is not
    inactive as backoff runs, one more move, to the contact position; the
    result is decided by the input as finish runs, the position at that
    moment is stored for every axis, no diagnostic is queued, and the
    saved settings are back in place at the end. *)
Theorem probe_move_cycle s e1 e2 e3 e4 :
  func (pb s) = Some F_probing_start ->
  cycle_state (cm s) = CYCLE_PROBE ->
  cm_get_runtime_busy e1 = false -> cm_get_runtime_busy e2 = false ->
  cm_get_runtime_busy e3 = false -> cm_get_runtime_busy e4 = false ->
  gpio_input e1 (probe_input (pb s)) = INPUT_INACTIVE ->
  exists s' evs,
    poll X [e1; e2; e3; e4] s =
    Some ([STAT_EAGAIN; STAT_EAGAIN; STAT_EAGAIN; STAT_OK], s') /\
    probe_state (cm s') = finish_probe_state e3 s /\
    (forall axis, (axis < AXES)%nat ->
       probe_results (cm s') axis = cm_get_absolute_position e3 axis) /\
    settings_as_saved (pb s) (cm s') /\
    trace s' = trace s ++ evs /\
    straight_feeds evs = probe_moves X e2 s /\
    messages_of evs = [].
Proof. exact (probe_move_cycle_steps s e1 e2 e3 e4). Qed.

Lemma cm_straight_probe_settings tgt flg s :
  a (cm (snd (cm_straight_probe X tgt flg s))) = a (cm s) /\
  gm_coord_system (cm (snd (cm_straight_probe X tgt flg s)))
  = gm_coord_system (cm s) /\
  gm_distance_mode (cm (snd (cm_straight_probe X tgt flg s)))
  = gm_distance_mode (cm s).
Proof.
  unfold cm_straight_probe, bind, reads, ret. cbn.
  destruct (fp_ZERO X (gm_feed_rate (cm s))); [repeat split|].
  destruct (flg AXIS_X), (flg AXIS_Y), (flg AXIS_Z); repeat split.
Qed.

Lemma probe_armed_setup s :
  func (pb (probe_armed (probe_setup s))) = Some F_probing_start /\
  probe_input (pb (probe_armed (probe_setup s))) = 5 /\
  target (pb (probe_armed (probe_setup s))) = target (pb s) /\
  flags (pb (probe_armed (probe_setup s))) = flags (pb s) /\
  cycle_state (cm (probe_armed (probe_setup s))) = CYCLE_PROBE /\
  exists evs,
    trace (probe_armed (probe_setup s)) = trace s ++ evs /\
    straight_feeds evs = [] /\ messages_of evs = [].
Proof.
  do 5 (split; [reflexivity|]).
  destruct (probe_setup_trace s) as (evs & Ht & Hf & Hm).
  exists (evs ++ init_arming_calls). split; [|split].
  - cbn [probe_armed trace]. rewrite Ht. symmetry. apply app_assoc.
  - rewrite straight_feeds_app, Hf. reflexivity.
  - rewrite messages_of_app, Hm. reflexivity.
Qed.

Lemma probe_armed_setup_saved s :
  saved_coord_system (pb (probe_armed (probe_setup s))) = gm_coord_system (cm s) /\
  saved_distance_mode (pb (probe_armed (probe_setup s))) = gm_distance_mode (cm s) /\
  (forall axis, (axis < AXES)%nat ->
     saved_jerk (pb (probe_armed (probe_setup s))) axis = jerk_max (a (cm s) axis)).
Proof. do 2 (split; [reflexivity|]). each_axis. Qed.

(** X11: a probe request from start to end.  With a feed rate, a linear
    axis flagged, no rotary axis flagged and a travel of the minimum at
    least, the request is accepted and five idle polls complete the cycle,
    the input being inactive as the probe move is started: in-progress four
    times, then ok.  Input 5 is the one read; the moves are the probe move
    to the requested target and, if and only if the input is not inactive
    as backoff runs, the move back to the contact position; the result is
    success exactly if the input reads true as finish runs; the position
    at that moment is stored for every axis; no diagnostic is queued; and
    jerk, coordinate system and distance mode end as they were before the
    request. *)
Theorem straight_probe_cycle tgt flg s e0 e1 e2 e3 e4 :
  fp_ZERO X (gm_feed_rate (cm s)) = false ->
  linear_axis_flagged flg = true ->
  fp_TRUE X (flg AXIS_A) = false ->
  fp_TRUE X (flg AXIS_B) = false ->
  fp_TRUE X (flg AXIS_C) = false ->
  Qltb (get_axis_vector_length X (cm_get_absolute_position e0) tgt)
       MINIMUM_PROBE_TRAVEL = false ->
  cm_get_runtime_busy e0 = false -> cm_get_runtime_busy e1 = false ->
  cm_get_runtime_busy e2 = false -> cm_get_runtime_busy e3 = false ->
  cm_get_runtime_busy e4 = false ->
  gpio_input e1 5 = INPUT_INACTIVE ->
  exists s' evs,
    fst (cm_straight_probe X tgt flg s) = STAT_OK /\
    poll X [e0; e1; e2; e3; e4] (snd (cm_straight_probe X tgt flg s)) =
    Some ([STAT_EAGAIN; STAT_EAGAIN; STAT_EAGAIN; STAT_EAGAIN; STAT_OK], s') /\
    probe_state (cm s') =
    (if gpio_input e3 5 =? C_true then PROBE_SUCCEEDED else PROBE_FAILED) /\
    (forall axis, (axis < AXES)%nat ->
       probe_results (cm s') axis = cm_get_absolute_position e3 axis) /\
    same_settings (cm s) (cm s') /\
    trace s' = trace s ++ evs /\
    straight_feeds evs =
    cm_straight_feed_ev tgt flg ::
    (if gpio_input e2 5 =? INPUT_INACTIVE then []
     else [cm_straight_feed_ev
             (kn_forward_kinematics X (en_get_encoder_snapshot_vector e2)) flg]) /\
    messages_of evs = [].
Proof.
  intros Hz Hl HA HB HC Ht Hb0 Hb1 Hb2 Hb3 Hb4 H1.
  assert (Hok : fst (cm_straight_probe X tgt flg s) = STAT_OK)
    by (rewrite cm_straight_probe_cases, Hz, Hl; reflexivity).
  destruct (cm_straight_probe_accepts X tgt flg s Hz Hl)
    as (Htgt & Hflg & Hfunc & Hwait & _ & Htr0).
  destruct (cm_straight_probe_settings tgt flg s) as (Ha0 & Hc0 & Hd0).
  set (s0 := snd (cm_straight_probe X tgt flg s)) in *. clearbody s0.
  assert (Hinit : _probing_init X e0 s0 = (STAT_EAGAIN, probe_armed (probe_setup s0))).
  { apply probing_init_valid.
    - unfold probe_travel_too_short. rewrite Htgt. exact Ht.
    - rewrite Hflg. exact HA.
    - rewrite Hflg. exact HB.
    - rewrite Hflg. exact HC. }
  destruct (probe_armed_setup s0)
    as (Hf1 & Hi1 & Htgt1 & Hflg1 & Hc1 & evs0 & Htr1 & Hfeeds0 & Hmsgs0).
  destruct (probe_armed_setup_saved s0) as (Hsc & Hsd & Hsj).
  set (s1 := probe_armed (probe_setup s0)) in *. clearbody s1.
  destruct (probe_move_cycle_steps s1 e1 e2 e3 e4)
    as (s' & evs1 & Hpoll & Hstate & Hres & Hset & Htr & Hfeeds1 & Hmsgs1);
    try assumption; [rewrite Hi1; exact H1|].
  exists s', (evs0 ++ evs1).
  split; [exact Hok|].
  split; [|split; [|split; [|split; [|split; [|split]]]]].
  - rewrite (poll_step X e0 _ s0 STAT_EAGAIN s1).
    + rewrite Hpoll. reflexivity.
    + rewrite callback_active by (right; exact Hwait).
      rewrite Hb0. unfold pb_func_call. rewrite Hfunc.
      cbn [state_function]. rewrite Hinit. reflexivity.
  - rewrite Hstate. unfold finish_probe_state. rewrite Hi1. reflexivity.
  - exact Hres.
  - apply (saved_settings_restored (pb s1)); try assumption.
    + rewrite Hsc. exact Hc0.
    + rewrite Hsd. exact Hd0.
    + intros axis Hax. rewrite Hsj, Ha0 by exact Hax. reflexivity.
  - rewrite Htr, Htr1, Htr0. symmetry. apply app_assoc.
  - rewrite straight_feeds_app, Hfeeds0, Hfeeds1.
    unfold probe_moves, backoff_moves.
    rewrite Htgt1, Hflg1, Hi1, Htgt, Hflg. reflexivity.
  - rewrite messages_of_app, Hmsgs0, Hmsgs1. reflexivity.
Qed.

End Cycles.

(** ** Concrete runs of the further properties *)

(** X1 on the probe whose target is the current position: the state
    function run is [_probing_init], which takes the error exit, and the
    status that reaches the controller is in-progress. *)
Lemma callback_never_reports_failure_run :
  cm_probing_cycle_callback bench (idle_at origin 0) pending_nowhere
  = Some (STAT_EAGAIN,
          snd (_probing_init bench (idle_at origin 0) pending_nowhere)) /\
  probe_travel_too_short bench (idle_at origin 0) pending_nowhere = true /\
  cycle_status STAT_EAGAIN.
Proof.
  split; [vm_compute; reflexivity|].
  split; [vm_compute; reflexivity|].
  apply (proj1 (callback_never_reports_failure bench (idle_at origin 0)
                  pending_nowhere STAT_EAGAIN
                  (snd (_probing_init bench (idle_at origin 0) pending_nowhere))
                  ltac:(vm_compute; reflexivity))).
Defined.

(** X3 on the machine at power-up, polled idle and busy. *)
Lemma poll_outside_cycle_run :
  poll bench [idle_at origin 0; busy_at origin 1; idle_at probe_down 1]
       (power_up 100)
  = Some ([STAT_NOOP; STAT_NOOP; STAT_NOOP], power_up 100).
Proof.
  apply (poll_outside_cycle bench
           [idle_at origin 0; busy_at origin 1; idle_at probe_down 1]
           (power_up 100)); discriminate.
Defined.

(** X4 on a pending probe polled through its whole cycle and beyond. *)
Lemma dispatch_vector_advances_run :
  (exists sts s' f',
     poll bench [idle_at origin 0; idle_at origin 0; busy_at probe_down 0;
                 idle_at probe_down 0; idle_at probe_down 0;
                 idle_at probe_down 0; idle_at probe_down 0] pending_down
     = Some (sts, s') /\
     List.length sts = 7%nat /\
     func (pb s') = Some f' /\
     (func_rank F_probing_init <= func_rank f')%nat) /\
  (forall e,
     F_probing_init <> F_probing_finalize_exit ->
     exists f',
       func (pb (snd (state_function bench F_probing_init e pending_down)))
       = Some f' /\
       (func_rank F_probing_init < func_rank f')%nat).
Proof.
  apply (dispatch_vector_advances bench F_probing_init pending_down
           [idle_at origin 0; idle_at origin 0; busy_at probe_down 0;
            idle_at probe_down 0; idle_at probe_down 0;
            idle_at probe_down 0; idle_at probe_down 0]).
  reflexivity.
Defined.

(** X5 on the poll that initializes the pending probe. *)
Lemma poll_keeps_request_run :
  target (pb probing_down) = target (pb pending_down) /\
  flags (pb probing_down) = flags (pb pending_down).
Proof.
  apply (poll_keeps_request bench [idle_at origin 0] pending_down
           [STAT_EAGAIN] probing_down).
  vm_compute. reflexivity.
Defined.

(** X6 on the poll that starts the probe move. *)
Lemma poll_after_init_keeps_singleton_run :
  pb_frame (pb probing_down) (pb probing_down_moving).
Proof.
  apply (poll_after_init_keeps_singleton bench F_probing_start
           [idle_at origin 0] probing_down [STAT_EAGAIN] probing_down_moving).
  - vm_compute. reflexivity.
  - discriminate.
  - vm_compute. reflexivity.
Defined.

(** X8 on [probing_down]: contact is made at Z = -4 and holds. *)
Lemma probe_move_cycle_run :
  exists s' evs,
    poll bench [idle_at origin 0; idle_at contact_at 1;
                idle_at contact_at 1; idle_at contact_at 1] probing_down =
    Some ([STAT_EAGAIN; STAT_EAGAIN; STAT_EAGAIN; STAT_OK], s') /\
    probe_state (cm s') = finish_probe_state (idle_at contact_at 1) probing_down /\
    (forall axis, (axis < AXES)%nat ->
       probe_results (cm s') axis
       = cm_get_absolute_position (idle_at contact_at 1) axis) /\
    settings_as_saved (pb probing_down) (cm s') /\
    trace s' = trace probing_down ++ evs /\
    straight_feeds evs = probe_moves bench (idle_at contact_at 1) probing_down /\
    messages_of evs = [].
Proof.
  apply (probe_move_cycle bench probing_down
           (idle_at origin 0) (idle_at contact_at 1)
           (idle_at contact_at 1) (idle_at contact_at 1));
    vm_compute; reflexivity.
Defined.

(** X10 on the pending probe: initialized, polled once, then ended by
    either exit. *)
Lemma probing_settings_round_trip_run :
  same_settings (cm pending_down)
    (cm (snd (_probing_finalize_exit (idle_at probe_down 0) probing_down_moving)))
  /\
  (forall axis,
     same_settings (cm pending_down)
       (cm (snd (_probing_error_exit bench (idle_at probe_down 0) axis
                   probing_down_moving)))).
Proof.
  apply (probing_settings_round_trip bench (idle_at origin 0)
           [idle_at origin 0] (idle_at probe_down 0) pending_down
           [STAT_EAGAIN] probing_down_moving).
  vm_compute. reflexivity.
Defined.

(** X11 on a probe of Z down to -10 from the origin at feed rate 100,
    with contact at Z = -4. *)
Lemma straight_probe_cycle_run :
  exists s' evs,
    fst (cm_straight_probe bench probe_down z_only (power_up 100)) = STAT_OK /\
    poll bench [idle_at origin 0; idle_at origin 0; idle_at contact_at 1;
                idle_at contact_at 1; idle_at contact_at 1]
         (snd (cm_straight_probe bench probe_down z_only (power_up 100))) =
    Some ([STAT_EAGAIN; STAT_EAGAIN; STAT_EAGAIN; STAT_EAGAIN; STAT_OK], s') /\
    probe_state (cm s') =
    (if gpio_input (idle_at contact_at 1) 5 =? C_true
     then PROBE_SUCCEEDED else PROBE_FAILED) /\
    (forall axis, (axis < AXES)%nat ->
       probe_results (cm s') axis
       = cm_get_absolute_position (idle_at contact_at 1) axis) /\
    same_settings (cm (power_up 100)) (cm s') /\
    trace s' = trace (power_up 100) ++ evs /\
    straight_feeds evs =
    cm_straight_feed_ev probe_down z_only ::
    (if gpio_input (idle_at contact_at 1) 5 =? INPUT_INACTIVE then []
     else [cm_straight_feed_ev
             (kn_forward_kinematics bench
                (en_get_encoder_snapshot_vector (idle_at contact_at 1)))
             z_only]) /\
    messages_of evs = [].
Proof.
  apply (straight_probe_cycle bench probe_down z_only (power_up 100)
           (idle_at origin 0) (idle_at origin 0) (idle_at contact_at 1)
           (idle_at contact_at 1) (idle_at contact_at 1));
    vm_compute; reflexivity.
Defined.

(** * The probe input *)

Section ProbeInput.

Variable X : helpers.

Lemma calls_made_appended {A : Type} (m : M A) (s : machine) (evs : list event) :
  trace (snd (m s)) = trace s ++ evs -> calls_made m s = evs.
Proof.
  intros H. unfold calls_made. rewrite H, skipn_app, skipn_all, Nat.sub_diag.
  reflexivity.
Qed.

Lemma gpio_calls_app (tr1 tr2 : list event) :
  gpio_calls (tr1 ++ tr2) = gpio_calls tr1 ++ gpio_calls tr2.
Proof. apply filter_app. Qed.

Lemma gpio_calls_none (evs : list event) :
  Forall (fun ev => is_gpio ev = false) evs -> gpio_calls evs = [].
Proof.
  induction 1 as [|ev evs Hev _ IH]; [reflexivity|].
  cbn. rewrite Hev. exact IH.
Qed.

Lemma prb_report_no_gpio state flg res : gpio_calls (prb_report state flg res) = [].
Proof.
  apply gpio_calls_none.
  eapply Forall_impl; [|apply prb_report_quiet]. intros ev [H _]. exact H.
Qed.

(** *** One gpio call per state function, on the probe input *)

Lemma probing_start_gpio e s :
  gpio_calls (calls_made (_probing_start e) s) = [probe_read e s].
Proof.
  destruct (Z.eq_dec (gpio_input e (probe_input (pb s))) INPUT_INACTIVE) as [H|H].
  - erewrite calls_made_appended
      by (rewrite probing_start_open by exact H; reflexivity).
    reflexivity.
  - erewrite calls_made_appended
      by (rewrite probing_start_contacted by exact H; reflexivity).
    reflexivity.
Qed.

Lemma probing_backoff_gpio e s :
  gpio_calls (calls_made (_probing_backoff X e) s) = [probe_read e s].
Proof.
  destruct (Z.eq_dec (gpio_input e (probe_input (pb s))) INPUT_INACTIVE) as [H|H].
  - erewrite calls_made_appended
      by (rewrite probing_backoff_open by exact H; reflexivity).
    reflexivity.
  - erewrite calls_made_appended
      by (rewrite probing_backoff_contacted by exact H; reflexivity).
    reflexivity.
Qed.

Lemma probing_finish_gpio e s :
  gpio_calls (calls_made (_probing_finish e) s) = [probe_read e s].
Proof.
  erewrite calls_made_appended by (rewrite probing_finish_run; reflexivity).
  change (probe_read e s :: ?r) with ([probe_read e s] ++ r).
  rewrite gpio_calls_app, prb_report_no_gpio. reflexivity.
Qed.

Lemma probing_finalize_exit_gpio e s :
  gpio_calls (calls_made (_probing_finalize_exit e) s)
  = [gpio_set_probing_mode_ev (probe_input (pb s)) false].
Proof.
  erewrite calls_made_appended by apply probing_finalize_exit_trace.
  reflexivity.
Qed.

Lemma probing_error_exit_gpio e axis s :
  gpio_calls (calls_made (_probing_error_exit X e axis) s)
  = [gpio_set_probing_mode_ev (probe_input (pb s)) false].
Proof.
  erewrite calls_made_appended by apply probing_error_exit_trace.
  reflexivity.
Qed.

(** *** The gpio calls of [_probing_init] *)

Lemma setup_no_gpio (ev : event) : is_setup ev = true -> is_gpio ev = false.
Proof. destruct ev; cbn; intros H; try discriminate H; reflexivity. Qed.

Lemma gpio_error_check s0 calls (c : bool) e axis :
  hoare (gpio_so_far s0 calls)
        (when c (_probing_error_exit X e axis ;; ret tt))
        (fun _ =>
           gpio_so_far s0
             (calls ++ if c
                       then [gpio_set_probing_mode_ev (probe_input (pb s0)) false]
                       else [])).
Proof.
  intros s1 [[Hin Hreq] (evs & Ht & Hg)]. destruct c.
  - rewrite when_true, dropped_run. split.
    + rewrite probing_error_exit_pb. split; assumption.
    + exists (evs ++ error_exit_report X axis ++ cleanup_calls e s1). split.
      * rewrite probing_error_exit_trace, Ht. symmetry. apply app_assoc.
      * rewrite gpio_calls_app, Hg, <- Hin. reflexivity.
  - cbn [when ret snd]. rewrite app_nil_r. split; [split; assumption|].
    exists evs. split; assumption.
Qed.

(** Before it arms input 5, [_probing_init] makes one gpio call for each
    error exit it takes: the disarming of the input that was the probe
    input on entry. *)
Lemma probing_init_gpio e s :
  exists before,
    trace (snd (_probing_init X e s)) = trace s ++ before ++ init_arming_calls /\
    gpio_calls before =
    map (fun _ => gpio_set_probing_mode_ev (probe_input (pb s)) false)
        (init_error_exits X e s).
Proof.
  set (d := gpio_set_probing_mode_ev (probe_input (pb s)) false).
  set (d0 := if probe_travel_too_short X e s then [d] else []).
  set (dA := if fp_TRUE X (flags (pb s) AXIS_A) then [d] else []).
  set (dB := if fp_TRUE X (flags (pb s) AXIS_B) then [d] else []).
  set (dC := if fp_TRUE X (flags (pb s) AXIS_C) then [d] else []).
  assert (Hcalls : map (fun _ => d) (init_error_exits X e s)
                   = ((([] ++ d0) ++ dA) ++ dB) ++ dC).
  { unfold init_error_exits, rotary_error_exit, d0, dA, dB, dC.
    destruct (probe_travel_too_short X e s),
      (fp_TRUE X (flags (pb s) AXIS_A)), (fp_TRUE X (flags (pb s) AXIS_B)),
      (fp_TRUE X (flags (pb s) AXIS_C)); reflexivity. }
  rewrite Hcalls.
  apply (probing_init_checks X
           (fun p => probe_input p = probe_input (pb s) /\ same_request s p)
           (fun ev => is_gpio ev = false) (trace s)
           (fun p p' Hi Ht Hf H =>
              conj (eq_trans Hi (proj1 H))
                   (conj (eq_trans Ht (proj1 (proj2 H)))
                         (eq_trans Hf (proj2 (proj2 H)))))
           setup_no_gpio e
           (gpio_so_far s ([] ++ d0)) (gpio_so_far s (([] ++ d0) ++ dA))
           (gpio_so_far s ((([] ++ d0) ++ dA) ++ dB))
           (gpio_so_far s (((([] ++ d0) ++ dA) ++ dB) ++ dC))
           (fun _ s' =>
              exists before,
                trace s' = trace s ++ before ++ init_arming_calls /\
                gpio_calls before = (((([] ++ d0) ++ dA) ++ dB) ++ dC))).
  - intros tgt s1 [[Hp (evs & Ht & Hq)] Htgt].
    assert (Hc : Qltb (get_axis_vector_length X (cm_get_absolute_position e) tgt)
                      MINIMUM_PROBE_TRAVEL = probe_travel_too_short X e s)
      by (unfold probe_travel_too_short; rewrite Htgt, (proj1 (proj2 Hp));
          reflexivity).
    rewrite Hc. apply gpio_error_check. split; [exact Hp|].
    exists evs. split; [exact Ht | apply gpio_calls_none, Hq].
  - intros flag s1 [Hq Hflag].
    assert (Hc : fp_TRUE X flag = fp_TRUE X (flags (pb s) AXIS_A))
      by (rewrite Hflag, (proj2 (proj2 (proj1 Hq))); reflexivity).
    rewrite Hc. apply gpio_error_check, Hq.
  - intros flag s1 [Hq Hflag].
    assert (Hc : fp_TRUE X flag = fp_TRUE X (flags (pb s) AXIS_B))
      by (rewrite Hflag, (proj2 (proj2 (proj1 Hq))); reflexivity).
    rewrite Hc. apply gpio_error_check, Hq.
  - intros flag s1 [Hq Hflag].
    assert (Hc : fp_TRUE X flag = fp_TRUE X (flags (pb s) AXIS_C))
      by (rewrite Hflag, (proj2 (proj2 (proj1 Hq))); reflexivity).
    rewrite Hc. apply gpio_error_check, Hq.
  - intros s1 [_ (evs & Ht & Hg)]. exists evs. split; [|exact Hg].
    cbn [probe_armed trace]. rewrite Ht. symmetry. apply app_assoc.
  - split; [split; [reflexivity | split; reflexivity] | apply grown_refl].
Qed.

(** C9 (amended): whatever the machine, the probe request and the
    environment, [_probing_init] makes 5 the probe input and ends by arming
    input 5 in probing mode (and pausing the spindle).  Once it has
    returned, input 5 stays the probe input over any sequence of polls,
    every gpio call of those polls is on input 5, and from the machine
    they end in each of start, backoff and finish makes exactly one gpio
    call, the read of input 5, and each exit (finalize, or the error exit
    with any argument) exactly one, the disarming of input 5.  Before the
    arming, [_probing_init] makes one gpio call for each error exit it
    takes: the disarming of the input that was the probe input when
    [_probing_init] was entered. *)
Theorem probing_input_is_5 e0 s es :
  probe_input (pb (snd (_probing_init X e0 s))) = 5 /\
  (exists before,
     trace (snd (_probing_init X e0 s)) =
     trace s ++ before ++
     [gpio_set_probing_mode_ev 5 true; cm_spindle_optional_pause_ev true] /\
     gpio_calls before =
     map (fun _ => gpio_set_probing_mode_ev (probe_input (pb s)) false)
         (init_error_exits X e0 s)) /\
  exists sts s' evs,
    poll X es (snd (_probing_init X e0 s)) = Some (sts, s') /\
    probe_input (pb s') = 5 /\
    trace s' = trace (snd (_probing_init X e0 s)) ++ evs /\
    Forall on_input_5 evs /\
    (forall e,
       gpio_calls (calls_made (_probing_start e) s')
       = [gpio_read_input_ev 5 (gpio_input e 5)] /\
       gpio_calls (calls_made (_probing_backoff X e) s')
       = [gpio_read_input_ev 5 (gpio_input e 5)] /\
       gpio_calls (calls_made (_probing_finish e) s')
       = [gpio_read_input_ev 5 (gpio_input e 5)] /\
       gpio_calls (calls_made (_probing_finalize_exit e) s')
       = [gpio_set_probing_mode_ev 5 false] /\
       forall axis,
         gpio_calls (calls_made (_probing_error_exit X e axis) s')
         = [gpio_set_probing_mode_ev 5 false]).
Proof.
  pose proof (probing_init_armed X e0 s) as (Hf & Hp & _).
  split; [exact Hp|]. split; [apply probing_init_gpio|].
  destruct (poll_input_5 X (trace (snd (_probing_init X e0 s))) es
              (snd (_probing_init X e0 s)))
    as (sts & s' & Hpoll & _ & Hp' & evs & Ht' & Hok).
  - rewrite Hf. discriminate.
  - split; [exact Hp | apply grown_refl].
  - exists sts, s', evs. unfold probes_input_5 in Hp'.
    do 4 (split; [assumption|]).
    intros e.
    rewrite probing_start_gpio, probing_backoff_gpio, probing_finish_gpio,
      probing_finalize_exit_gpio.
    unfold probe_read. rewrite Hp'.
    do 4 (split; [reflexivity|]).
    intros axis. rewrite probing_error_exit_gpio, Hp'. reflexivity.
Qed.

End ProbeInput.

(** C9, as stated, fails: the probe accepted at power-up with its target
    at the current position.  [_probing_init] takes the error exit for the
    invalid destination, whose cleanup disarms input 0, the probe input at
    that moment; input 5 is armed after it, and the polls that follow do
    nothing: the only disarming of the cycle is not on input 5. *)
Lemma probing_disarms_previous_input :
  probe_input (pb pending_nowhere) = 0 /\
  gpio_calls (trace (snd (_probing_init bench (idle_at origin 0) pending_nowhere)))
  = [gpio_set_probing_mode_ev 0 false; gpio_set_probing_mode_ev 5 true] /\
  poll bench [idle_at origin 0; idle_at origin 0; idle_at origin 0; idle_at origin 0]
       (snd (_probing_init bench (idle_at origin 0) pending_nowhere))
  = Some ([STAT_NOOP; STAT_NOOP; STAT_NOOP; STAT_NOOP],
          snd (_probing_init bench (idle_at origin 0) pending_nowhere)).
Proof. vm_compute. repeat split. Qed.
